(** * serverless-cloudwatch-retention: the CloudwatchPolicyPlugin

    A shallow embedding of [plugin.js] and the properties of its
    [addCloudwatchPolicy] hook.

    The plugin runs just before the CloudFormation template is finalised.
    It collects the log groups of the template, asks CloudFormation whether
    the stack exists, and, when logs are to be retained, asks CloudWatchLogs
    which log groups already exist, deletes those from the template together
    with the [DependsOn] references to them, and writes a [DeletionPolicy]
    onto the log groups.

    Modelling choices.
    - A JavaScript object used as an ordered dictionary ([Resources]) is a
      list of key/value pairs in the order of [Object.keys]; the keys of a
      well-formed object are pairwise distinct ([NoDup]).  Each key holds its
      own resource object (the template is a JSON tree), so a resource object
      is identified by its key.
    - [logGroupLookup] (a plain object indexed by name) is a [gmap], and the
      [Set] of duplicate keys is a [gset].
    - The promise chain is a small monad: state passing over the template,
      rejection as an error, and every [provider.request] as a node of an
      interaction tree that waits for the response of the provider. *)

From Stdlib Require Import ZArith.
From stdpp Require Import base option list strings gmap.

Open Scope Z_scope.

(** ** The CloudFormation template *)

(** [DependsOn] is either an array of logical ids or one logical id; the
    plugin tells them apart by the presence of [.filter]. *)
Inductive DependsOnValue : Type :=
| DependsOnArray (entries : list string)
| DependsOnString (entry : string).

(** [Properties] of a resource.  Only [LogGroupName] is ever read; the other
    properties are carried along verbatim. *)
Record ResourceProperties : Type := mkProperties {
  LogGroupName : option string;
  otherProperties : list (string * string)
}.

(** A resource of the template.  A field that is absent in the JavaScript
    object is [None].  [otherAttributes] stands for the attributes the plugin
    never looks at (Metadata, Condition, ...). *)
Record Resource : Type := mkResource {
  Type_ : string;
  Properties : option ResourceProperties;
  DependsOn : option DependsOnValue;
  DeletionPolicy : option string;
  otherAttributes : list (string * string)
}.

Abbreviation ResourceMap := (list (string * Resource)).

(** [compiledCloudFormationTemplate]; [Resources] may be missing. *)
Record Template : Type := mkTemplate {
  Resources : option ResourceMap
}.

#[global] Instance DependsOnValue_eq_dec : EqDecision DependsOnValue.
Proof. solve_decision. Defined.
#[global] Instance ResourceProperties_eq_dec : EqDecision ResourceProperties.
Proof. solve_decision. Defined.
#[global] Instance Resource_eq_dec : EqDecision Resource.
Proof. solve_decision. Defined.
#[global] Instance Template_eq_dec : EqDecision Template.
Proof. solve_decision. Defined.

(** ** The provider: requests, responses, errors *)

Record ProviderError : Type := mkProviderError {
  message : string
}.

(** The error object a rejected request carries. *)
Record RequestError : Type := mkRequestError {
  statusCode : option Z;
  providerError : option ProviderError
}.

Record LogGroupInfo : Type := mkLogGroupInfo {
  logGroupName : string
}.

(** The body of a successful response; [logGroups] is only present in the
    answer of [describeLogGroups]. *)
Record ResponseBody : Type := mkResponseBody {
  logGroups : option (list LogGroupInfo)
}.

(** [provider.request(service, method, params)], for the two calls made. *)
Inductive Request : Type :=
| describeStacks (StackName : string)
| describeLogGroups (logGroupNamePrefix : string).

Inductive Response : Type :=
| Resolves (body : ResponseBody)
| Rejects (error : RequestError).

#[global] Instance ProviderError_eq_dec : EqDecision ProviderError.
Proof. solve_decision. Defined.
#[global] Instance RequestError_eq_dec : EqDecision RequestError.
Proof. solve_decision. Defined.
#[global] Instance Request_eq_dec : EqDecision Request.
Proof. solve_decision. Defined.

(** What a promise of the plugin can be rejected with. *)
Inductive Reason : Type :=
| RejectedMessage (msg : string)      (* Promise.reject('...') *)
| RejectedError (error : RequestError) (* the error of a failed request *)
| TypeError.                           (* reading a property of undefined *)

#[global] Instance Reason_eq_dec : EqDecision Reason.
Proof. solve_decision. Defined.

(** ** Promises *)

Inductive Settlement (A : Type) : Type :=
| Fulfilled (a : A)
| Rejected (r : Reason).
Arguments Fulfilled {A} a.
Arguments Rejected {A} r.

(** A computation that is either settled or waits for the provider to answer
    one request before it goes on. *)
Inductive Task (R : Type) : Type :=
| Settled (r : R)
| Pending (rq : Request) (k : Response → Task R).
Arguments Settled {R} r.
Arguments Pending {R} rq k.

Fixpoint Task_bind {R R' : Type} (m : Task R) (f : R → Task R') : Task R' :=
  match m with
  | Settled r => f r
  | Pending rq k => Pending rq (λ resp, Task_bind (k resp) f)
  end.

(** A promise started on a template: it settles with a value or a reason and
    leaves the template as its callbacks mutated it. *)
Definition Promise (A : Type) : Type := Template → Task (Settlement A * Template).

Module Promise.

Definition resolve {A : Type} (a : A) : Promise A :=
  λ tpl, Settled (Fulfilled a, tpl).

Definition reject {A : Type} (r : Reason) : Promise A :=
  λ tpl, Settled (Rejected r, tpl).

(** [p.then(f)] *)
Definition then_ {A B : Type} (p : Promise A) (f : A → Promise B) : Promise B :=
  λ tpl, Task_bind (p tpl) (λ st,
    match st.1 with
    | Fulfilled a => f a st.2
    | Rejected r => Settled (Rejected r, st.2)
    end).

(** [p.catch(h)]: the value of [p], or what the handler makes of the
    reason. *)
Definition catch {A B : Type} (p : Promise A) (h : Reason → Promise B)
  : Promise (A + B) :=
  λ tpl, Task_bind (p tpl) (λ st,
    match st.1 with
    | Fulfilled a => Settled (Fulfilled (inl a), st.2)
    | Rejected r =>
        Task_bind (h r st.2) (λ st',
          match st'.1 with
          | Fulfilled b => Settled (Fulfilled (inr b), st'.2)
          | Rejected r' => Settled (Rejected r', st'.2)
          end)
    end).

(** A synchronous mutation of the template inside a callback. *)
Definition mutate (f : Template → Template) : Promise unit :=
  λ tpl, Settled (Fulfilled tt, f tpl).

End Promise.

(** [this.provider.request(...)]: the promise of the provider's answer. *)
Definition request (rq : Request) : Promise ResponseBody :=
  λ tpl, Pending rq (λ resp,
    match resp with
    | Resolves body => Settled (Fulfilled body, tpl)
    | Rejects error => Settled (Rejected (RejectedError error), tpl)
    end).

Notation "p '.then' f" := (Promise.then_ p f)
  (at level 50, left associativity, only parsing).
Notation "p '.catch' h" := (Promise.catch p h)
  (at level 50, left associativity, only parsing).

(** Running a task against a provider: the requests issued, in order, and
    the result. *)
Fixpoint run {R : Type} (provider : Request → Response) (m : Task R)
  : list Request * R :=
  match m with
  | Settled r => ([], r)
  | Pending rq k =>
      let res := run provider (k (provider rq)) in (rq :: res.1, res.2)
  end.

(** ** JavaScript helpers *)

(** [haystack.includes(needle)] *)
Fixpoint includes (haystack needle : string) : bool :=
  String.prefix needle haystack ||
  match haystack with
  | EmptyString => false
  | String _ rest => includes rest needle
  end.

(** The property key a value is coerced to in [obj[value]]: a missing
    [LogGroupName] reads as [undefined], whose key is "undefined". *)
Definition propertyKey (v : option string) : string :=
  default "undefined" v.

(** [obj[name] = key] on a plain object.  Assigning a string to ["__proto__"]
    calls the setter inherited from [Object.prototype], which ignores
    anything that is not an object: no own property is created. *)
Definition setProperty (name key : string) (obj : gmap string string)
  : gmap string string :=
  if decide (name = "__proto__") then obj else <[name := key]> obj.

(** [delete obj[key]]: the other properties keep their order. *)
Definition deleteProperty (key : string) (obj : ResourceMap) : ResourceMap :=
  filter (λ entry, entry.1 ≠ key) obj.

(** A mutation of the object held under [key]. *)
Definition alterProperty (f : Resource → Resource) (key : string)
  (obj : ResourceMap) : ResourceMap :=
  (λ entry, if decide (entry.1 = key) then (entry.1, f entry.2) else entry)
    <$> obj.

(** [const { Resources = {} } = template] *)
Definition getResources (tpl : Template) : ResourceMap :=
  default [] (Resources tpl).

(** Mutations go to the [Resources] object of the template; when it is
    missing they go to the fresh default object, which nobody sees. *)
Definition onResources (f : ResourceMap → ResourceMap) (tpl : Template)
  : Template :=
  mkTemplate (f <$> Resources tpl).

Definition setDependsOn (v : DependsOnValue) (res : Resource) : Resource :=
  mkResource (Type_ res) (Properties res) (Some v) (DeletionPolicy res)
    (otherAttributes res).

Definition setDeletionPolicy (v : string) (res : Resource) : Resource :=
  mkResource (Type_ res) (Properties res) (DependsOn res) (Some v)
    (otherAttributes res).

(** ** The plugin *)

(** What the plugin reads from [serverless] and never writes. *)
Record Config : Type := mkConfig {
  retainLogs : option bool
}.

Record Serverless : Type := mkServerless {
  providerName : string;                 (* sls.service.provider.name *)
  getStackName : string;                 (* provider.naming.getStackName() *)
  cloudwatchPolicy : option Config       (* sls.service.custom.cloudwatchPolicy *)
}.

Section CloudwatchPolicyPlugin.

Variable sls : Serverless.

(** [this.config = custom['cloudwatchPolicy'] || {}] *)
Definition config : Config :=
  default (mkConfig None) (cloudwatchPolicy sls).

(** [const { retainLogs = false } = this.config] *)
Definition retainLogsOrDefault : bool :=
  default false (retainLogs config).

(** The loop of [addCloudwatchPolicy] that pushes [[key, res]] for every
    resource of type log group. *)
Definition collectLogGroups (Resources : ResourceMap) : ResourceMap :=
  filter (λ entry, Type_ entry.2 = "AWS::Logs::LogGroup") Resources.

(** [logGroups.forEach(([key, group]) =>
       logGroupLookup[group.Properties.LogGroupName] = key)];
    [None] when some group has no [Properties] (a TypeError). *)
Fixpoint buildLogGroupLookup (logGroups : ResourceMap)
  (logGroupLookup : gmap string string) : option (gmap string string) :=
  match logGroups with
  | [] => Some logGroupLookup
  | (key, group) :: rest =>
      match Properties group with
      | None => None
      | Some props =>
          buildLogGroupLookup rest
            (setProperty (propertyKey (LogGroupName props)) key logGroupLookup)
      end
  end.

(** The first callback of [_removeDuplicateLogGroups].  A name that is
    only found on [Object.prototype] adds a value that is not a string to
    the set; no key and no [DependsOn] entry can be equal to it, so it is
    left out of the set. *)
Definition duplicateKeys (logGroupLookup : gmap string string)
  (existingLogs : ResponseBody) : gset string :=
  foldl (λ duplicateKeys group,
           match logGroupLookup !! logGroupName group with
           | Some key => {[ key ]} ∪ duplicateKeys
           | None => duplicateKeys
           end)
        ∅ (default [] (logGroups existingLogs)).

(** [res.DependsOn = res.DependsOn.filter(d => !duplicates.has(d))], done
    when [res.DependsOn] is truthy and has a [filter]: an array. *)
Definition filterDependsOn (duplicates : gset string) (res : Resource)
  : Resource :=
  match DependsOn res with
  | Some (DependsOnArray entries) =>
      setDependsOn (DependsOnArray (filter (λ d, d ∉ duplicates) entries)) res
  | _ => res
  end.

(** The body of the loop of the second callback, for one key. *)
Definition removeReferences (duplicates : gset string)
  (Resources : ResourceMap) (key : string) : ResourceMap :=
  if decide (key ∈ duplicates) then deleteProperty key Resources
  else alterProperty (filterDependsOn duplicates) key Resources.

(** [for (let key of Object.keys(Resources)) ...]: the keys are taken
    once, before the loop. *)
Definition removeDuplicates (duplicates : gset string)
  (Resources : ResourceMap) : ResourceMap :=
  foldl (removeReferences duplicates) Resources Resources.*1.

Definition _removeDuplicateLogGroups (logGroups : ResourceMap)
  : Promise unit :=
  let stackName := getStackName sls in
  match buildLogGroupLookup logGroups ∅ with
  | None => Promise.reject TypeError
  | Some logGroupLookup =>
      request (describeLogGroups ("/aws/lambda/" +:+ stackName))
      .then (λ existingLogs,
        Promise.resolve (duplicateKeys logGroupLookup existingLogs))
      .then (λ duplicates,
        Promise.mutate (onResources (removeDuplicates duplicates)))
  end.

(** [error.statusCode === 400 && error.providerError &&
     error.providerError.message.includes('does not exist')] *)
Definition stackDoesNotExist (error : RequestError) : bool :=
  bool_decide (statusCode error = Some 400) &&
  match providerError error with
  | Some perr => includes (message perr) "does not exist"
  | None => false
  end.

(** [logGroups.forEach(([_, log]) => log.DeletionPolicy = ...)]: the
    groups deleted from the template are written to as well, which the
    template does not show. *)
Definition applyDeletionPolicy (policy : string) (logGroups : ResourceMap)
  (Resources : ResourceMap) : ResourceMap :=
  foldl (λ Resources log,
           alterProperty (setDeletionPolicy policy) log.1 Resources)
        Resources logGroups.

Definition addCloudwatchPolicy : Promise unit :=
  let retainLogs := retainLogsOrDefault in
  if decide (providerName sls ≠ "aws") then
    Promise.reject
      (RejectedMessage "Cannot add Cloudwatch Policy to non-aws provider")
  else λ tpl,
    let logGroups := collectLogGroups (getResources tpl) in
    let stackName := getStackName sls in
    (request (describeStacks stackName)
     .catch (λ error,
       match error with
       | RejectedError e =>
           if stackDoesNotExist e then Promise.resolve tt
           else Promise.reject error
       | _ => Promise.reject error
       end)
     .then (λ _,
       if retainLogs then _removeDuplicateLogGroups logGroups
       else Promise.resolve tt)
     .then (λ _,
       Promise.mutate
         (onResources
            (applyDeletionPolicy (if retainLogs then "Retain" else "Delete")
               logGroups)))) tpl.

(** One invocation of the hook against a provider: the requests made, how
    the promise settled, and the template afterwards. *)
Definition reconcile (provider : Request → Response) (tpl : Template)
  : list Request * (Settlement unit * Template) :=
  run provider (addCloudwatchPolicy tpl).

End CloudwatchPolicyPlugin.

(** ** Notions used in the statements *)

(** The property key under which a log group is entered into
    [logGroupLookup]: [group.Properties.LogGroupName] coerced to a key;
    [None] when the group has no [Properties]. *)
Definition registeredName (group : Resource) : option string :=
  (λ props, propertyKey (LogGroupName props)) <$> Properties group.

(** The names in the answer of [describeLogGroups]. *)
Definition existingNames (existingLogs : ResponseBody) : list string :=
  logGroupName <$> default [] (logGroups existingLogs).


(** The provider with the answer to the existence probe replaced. *)
Definition withStack (answer : Response) (provider : Request → Response)
  : Request → Response :=
  λ rq, match rq with
        | describeStacks _ => answer
        | _ => provider rq
        end.

(** What the hook does once the existence probe has been passed, in direct
    style. *)
Definition afterProbe (sls : Serverless) (provider : Request → Response)
  (tpl : Template) : list Request * (Settlement unit * Template) :=
  let logGroups := collectLogGroups (getResources tpl) in
  let stack := describeStacks (getStackName sls) in
  let inventory := describeLogGroups ("/aws/lambda/" +:+ getStackName sls) in
  if retainLogsOrDefault sls then
    match buildLogGroupLookup logGroups ∅ with
    | None => ([stack], (Rejected TypeError, tpl))
    | Some logGroupLookup =>
        match provider inventory with
        | Rejects error =>
            ([stack; inventory], (Rejected (RejectedError error), tpl))
        | Resolves existingLogs =>
            ([stack; inventory],
             (Fulfilled tt,
              onResources (applyDeletionPolicy "Retain" logGroups)
                (onResources
                   (removeDuplicates
                      (duplicateKeys logGroupLookup existingLogs)) tpl)))
        end
    end
  else
    ([stack],
     (Fulfilled tt, onResources (applyDeletionPolicy "Delete" logGroups) tpl)).

(** The outcome of the hook in direct style, by cases on what the provider
    answers; [reconcile_outcome] proves it equal to [reconcile]. *)
Definition outcome (sls : Serverless) (provider : Request → Response)
  (tpl : Template) : list Request * (Settlement unit * Template) :=
  let stack := describeStacks (getStackName sls) in
  if decide (providerName sls ≠ "aws") then
    ([], (Rejected
            (RejectedMessage "Cannot add Cloudwatch Policy to non-aws provider"),
          tpl))
  else
    match provider stack with
    | Resolves _ => afterProbe sls provider tpl
    | Rejects error =>
        if stackDoesNotExist error then afterProbe sls provider tpl
        else ([stack], (Rejected (RejectedError error), tpl))
    end.

(** ** The fixture of [test/plugin.spec.js] *)

Module Fixture.

Definition logGroup (name : string) (policy : option string) : Resource :=
  mkResource "AWS::Logs::LogGroup" (Some (mkProperties (Some name) []))
    None policy [].

Definition function (dependsOn : list string) : Resource :=
  mkResource "AWS::Lambda::Function" None
    (Some (DependsOnArray dependsOn)) None [].

Definition compiledCloudFormationTemplate : Template :=
  mkTemplate (Some
    [ ("FirstLogGroup", logGroup "/aws/lambda/first-log-group" None);
      ("SecondLogGroup", logGroup "/aws/lambda/second-log-group" None);
      ("FirstFunction", function ["FirstLogGroup"; "LambdaExecutionRole"]);
      ("SecondFunction", function ["SecondLogGroup"; "LambdaExecutionRole"]) ]).

(** What [testExistingLogs] expects to find afterwards. *)
Definition withoutFirstLogGroup : Template :=
  mkTemplate (Some
    [ ("SecondLogGroup",
       logGroup "/aws/lambda/second-log-group" (Some "Retain"));
      ("FirstFunction", function ["LambdaExecutionRole"]);
      ("SecondFunction", function ["SecondLogGroup"; "LambdaExecutionRole"]) ]).

(** What [testNoExistingLogs] expects to find afterwards. *)
Definition withRetainPolicy : Template :=
  mkTemplate (Some
    [ ("FirstLogGroup",
       logGroup "/aws/lambda/first-log-group" (Some "Retain"));
      ("SecondLogGroup",
       logGroup "/aws/lambda/second-log-group" (Some "Retain"));
      ("FirstFunction", function ["FirstLogGroup"; "LambdaExecutionRole"]);
      ("SecondFunction", function ["SecondLogGroup"; "LambdaExecutionRole"]) ]).

(** What the tests of 'Do not retain' expect to find afterwards. *)
Definition withDeletePolicy : Template :=
  mkTemplate (Some
    [ ("FirstLogGroup",
       logGroup "/aws/lambda/first-log-group" (Some "Delete"));
      ("SecondLogGroup",
       logGroup "/aws/lambda/second-log-group" (Some "Delete"));
      ("FirstFunction", function ["FirstLogGroup"; "LambdaExecutionRole"]);
      ("SecondFunction", function ["SecondLogGroup"; "LambdaExecutionRole"]) ]).



Definition serverlessMock (provider : string) (retain : bool) : Serverless :=
  mkServerless provider "mock-test-stack" (Some (mkConfig (Some retain))).

(** [describeStacks] rejects with "Resource does not exist". *)
Definition stackMissing : Response :=
  Rejects (mkRequestError (Some 400)
             (Some (mkProviderError "Resource does not exist"))).

Definition stackExists : Response := Resolves (mkResponseBody None).

Definition providerMock (stack : Response) (existing : list string)
  : Request → Response :=
  λ rq, match rq with
        | describeStacks _ => stack
        | describeLogGroups _ =>
            Resolves (mkResponseBody (Some (mkLogGroupInfo <$> existing)))
        end.

Definition probe : Request := describeStacks "mock-test-stack".
Definition inventory : Request :=
  describeLogGroups "/aws/lambda/mock-test-stack".

End Fixture.

(** Whether the answer to the existence probe lets the hook go on: the
    request resolved, or it was rejected with the error of a stack that does
    not exist. *)
Definition probePassed (sls : Serverless) (provider : Request → Response)
  : bool :=
  match provider (describeStacks (getStackName sls)) with
  | Resolves _ => true
  | Rejects error => stackDoesNotExist error
  end.

(** ** The constructor *)

(** The [serverless] object handed to the constructor, as far as the plugin
    reads it: [service.provider.name], [service.custom], which may be
    missing, with its entry [cloudwatchPolicy], which may be missing too, and
    the stack name of the provider that [getProvider] returns. *)
Record ServerlessInstance : Type := mkServerlessInstance {
  service_provider_name : string;
  service_custom : option (option Config);
  naming_getStackName : string
}.

(** The plugin object: [pluginSls] stands for [this.sls], [this.provider]
    and [this.config]; a hook is the promise its arrow function returns. *)
Record Plugin : Type := mkPlugin {
  pluginSls : Serverless;
  commands : list string;
  hooks : list (string * Promise unit)
}.

(** [constructor(serverless)]; [None] when it throws: reading
    [custom['cloudwatchPolicy']] of a missing [custom] is a TypeError. *)
Definition constructor (serverless : ServerlessInstance) : option Plugin :=
  match service_custom serverless with
  | None => None
  | Some entry =>
      let sls :=
        mkServerless (service_provider_name serverless)
          (naming_getStackName serverless) entry in
      Some (mkPlugin sls []
              [("before:package:finalize", addCloudwatchPolicy sls)])
  end.

(** ** Further scenarios *)

Module Scenario.

(** [describeStacks] resolves and [describeLogGroups] is rejected. *)
Definition inventoryError : RequestError := mkRequestError (Some 500) None.

Definition failingInventory : Request → Response :=
  λ rq, match rq with
        | describeStacks _ => Fixture.stackExists
        | describeLogGroups _ => Rejects inventoryError
        end.

(** A log group without [Properties] beside the ones of the fixture. *)
Definition bareLogGroup : Resource :=
  mkResource "AWS::Logs::LogGroup" None None None [].

Definition withBareLogGroup : Template :=
  mkTemplate (Some
    [ ("FirstLogGroup", Fixture.logGroup "/aws/lambda/first-log-group" None);
      ("BareLogGroup", bareLogGroup) ]).

(** Only functions. *)
Definition functionsOnly : Template :=
  mkTemplate (Some
    [ ("FirstFunction", Fixture.function ["LambdaExecutionRole"]) ]).

(** A function whose [DependsOn] is the one string 'FirstLogGroup'. *)
Definition dependentFunction : Resource :=
  mkResource "AWS::Lambda::Function" None
    (Some (DependsOnString "FirstLogGroup")) None [].

Definition withStringDependsOn : Template :=
  mkTemplate (Some
    [ ("FirstLogGroup", Fixture.logGroup "/aws/lambda/first-log-group" None);
      ("FirstFunction", dependentFunction) ]).

Definition stringDependsOnReconciled : Template :=
  mkTemplate (Some [ ("FirstFunction", dependentFunction) ]).

(** A log group named '__proto__'. *)
Definition withProtoLogGroup : Template :=
  mkTemplate (Some [ ("ProtoLogGroup", Fixture.logGroup "__proto__" None) ]).

Definition protoReconciled : Template :=
  mkTemplate (Some
    [ ("ProtoLogGroup", Fixture.logGroup "__proto__" (Some "Retain")) ]).


(** A log group with [Properties] but without [LogGroupName]. *)
Definition unnamedLogGroup : Resource :=
  mkResource "AWS::Logs::LogGroup" (Some (mkProperties None [])) None None [].

Definition withUnnamedLogGroup : Template :=
  mkTemplate (Some [ ("UnnamedLogGroup", unnamedLogGroup) ]).

(** A service with a [custom] section that has no [cloudwatchPolicy]. *)
Definition unconfigured : ServerlessInstance :=
  mkServerlessInstance "aws" (Some None) "mock-test-stack".

End Scenario.

(** * Lemmas *)

#[local] Set Warnings "-clear-no-such-hyp".

(** ** Objects as ordered dictionaries *)

Section ResourceMaps.

Implicit Types (obj : ResourceMap) (key k : string) (res r : Resource).

Lemma deleteProperty_keys key obj :
  (deleteProperty key obj).*1 = filter (λ k, k ≠ key) obj.*1.
Proof.
  unfold deleteProperty. induction obj as [|[k r] obj IH]; [done|].
  rewrite filter_cons. cbn [fmap list_fmap fst]. rewrite filter_cons. simpl.
  destruct (decide (k ≠ key)); simpl; [f_equal|]; exact IH.
Qed.

Lemma alterProperty_keys f key obj :
  (alterProperty f key obj).*1 = obj.*1.
Proof.
  unfold alterProperty. rewrite <- list_fmap_compose.
  apply list_fmap_ext. intros i [k r] _. simpl. by case_decide.
Qed.

(** A loop that mutates the objects under the keys [keys] with an
    idempotent [f] mutates every object whose key is listed, once. *)
Lemma foldl_alterProperty (f : Resource → Resource) (keys : list string) obj :
  (∀ r, f (f r) = f r) →
  foldl (λ o k, alterProperty f k o) obj keys =
  (λ entry, if decide (entry.1 ∈ keys) then (entry.1, f entry.2) else entry)
    <$> obj.
Proof.
  intros Hf. revert obj. induction keys as [|k keys IH]; intros obj; simpl.
  - rewrite <- (list_fmap_id obj) at 1. apply list_fmap_ext.
    by intros i [k r] _.
  - rewrite IH. unfold alterProperty. rewrite <- list_fmap_compose.
    apply list_fmap_ext. intros i [k' r] _. simpl.
    destruct (decide (k' = k)) as [->|Hne]; simpl.
    + rewrite (decide_True (P := k ∈ k :: keys)); [|set_solver].
      case_decide; by rewrite ?Hf.
    + destruct (decide (k' ∈ keys)), (decide (k' ∈ k :: keys)); set_solver.
Qed.

End ResourceMaps.

Section Purge.

Variable duplicates : gset string.
Implicit Types (obj : ResourceMap) (key k : string) (res r : Resource).

Lemma filterDependsOn_idemp r :
  filterDependsOn duplicates (filterDependsOn duplicates r) =
  filterDependsOn duplicates r.
Proof.
  unfold filterDependsOn.
  destruct (DependsOn r) as [[entries|s]|] eqn:E; simpl; rewrite ?E; try done.
  unfold setDependsOn. f_equal. f_equal. f_equal.
  apply list_filter_filter_l. done.
Qed.

(** One turn of the loop, seen from a single entry of the object. *)
Lemma removeReferences_omap obj key :
  removeReferences duplicates obj key =
  omap (λ entry,
          if decide (entry.1 = key) then
            if decide (key ∈ duplicates) then None
            else Some (entry.1, filterDependsOn duplicates entry.2)
          else Some entry) obj.
Proof.
  unfold removeReferences, deleteProperty, alterProperty.
  destruct (decide (key ∈ duplicates)) as [Hin|Hout].
  - induction obj as [|[k r] obj IH]; [done|].
    rewrite filter_cons. simpl.
    destruct (decide (k = key)) as [->|Hne].
    + rewrite decide_False; [done|]. by intros [].
    + rewrite decide_True; [|done]. by rewrite IH.
  - rewrite list_fmap_alt. apply list_omap_ext, Forall2_same_length_lookup.
    split; [done|]. intros i x y Hx Hy. simplify_eq. by case_decide.
Qed.

Lemma removeDuplicates_eq obj :
  removeDuplicates duplicates obj =
  (λ entry, (entry.1, filterDependsOn duplicates entry.2))
    <$> filter (λ entry, entry.1 ∉ duplicates) obj.
Proof.
  unfold removeDuplicates.
  assert (∀ (keys : list string) obj,
    foldl (removeReferences duplicates) obj keys =
    omap (λ entry,
            if decide (entry.1 ∈ keys) then
              if decide (entry.1 ∈ duplicates) then None
              else Some (entry.1, filterDependsOn duplicates entry.2)
            else Some entry) obj) as Hloop.
  { clear obj. induction keys as [|key keys IH]; intros obj.
    - cbn [foldl]. induction obj as [|[k r] obj IHobj]; [done|].
      cbn [omap list_omap fst snd].
      rewrite decide_False; [|set_solver]. by rewrite <- IHobj.
    - cbn [foldl]. rewrite IH, removeReferences_omap. clear IH.
      induction obj as [|[k r] obj IHobj]; [done|].
      cbn [omap list_omap fst snd].
      destruct (decide (k = key)) as [->|Hne].
      + rewrite (decide_True (P := key ∈ key :: keys)); [|set_solver].
        destruct (decide (key ∈ duplicates)) as [?|?]; [exact IHobj|].
        cbn [omap list_omap fst snd].
        rewrite filterDependsOn_idemp.
        rewrite !(decide_False (P := key ∈ duplicates)) by done.
        destruct (decide (key ∈ keys)) as [?|?]; by rewrite IHobj.
      + cbn [omap list_omap fst snd].
        destruct (decide (k ∈ keys)) as [?|?],
                 (decide (k ∈ key :: keys)) as [?|?];
          [|set_solver|set_solver|]; by rewrite IHobj. }
  rewrite Hloop.
  assert (∀ (keys : list string) obj, obj.*1 ⊆ keys →
    omap (λ entry,
            if decide (entry.1 ∈ keys) then
              if decide (entry.1 ∈ duplicates) then None
              else Some (entry.1, filterDependsOn duplicates entry.2)
            else Some entry) obj =
    (λ entry, (entry.1, filterDependsOn duplicates entry.2))
      <$> filter (λ entry, entry.1 ∉ duplicates) obj) as Hall.
  { clear. intros keys. induction obj as [|[k r] obj IH]; intros Hsub; [done|].
    rewrite filter_cons. cbn [omap list_omap fst snd].
    rewrite decide_True; [|set_solver].
    rewrite IH; [|set_solver].
    destruct (decide (k ∈ duplicates)) as [?|?].
    + by rewrite decide_False; [|tauto].
    + by rewrite decide_True. }
  by apply Hall.
Qed.

End Purge.

Lemma setDeletionPolicy_idemp policy r :
  setDeletionPolicy policy (setDeletionPolicy policy r) =
  setDeletionPolicy policy r.
Proof. done. Qed.

Lemma applyDeletionPolicy_eq policy (logGroups obj : ResourceMap) :
  applyDeletionPolicy policy logGroups obj =
  (λ entry, if decide (entry.1 ∈ logGroups.*1)
            then (entry.1, setDeletionPolicy policy entry.2) else entry)
    <$> obj.
Proof.
  unfold applyDeletionPolicy.
  rewrite <- (foldl_alterProperty (setDeletionPolicy policy)) by done.
  by rewrite foldl_fmap.
Qed.

Lemma reconcile_outcome sls provider tpl :
  reconcile sls provider tpl = outcome sls provider tpl.
Proof.
  unfold reconcile, outcome, afterProbe, addCloudwatchPolicy,
    _removeDuplicateLogGroups.
  destruct (decide (providerName sls ≠ "aws")); [done|].
  cbn. destruct (provider (describeStacks (getStackName sls))) as [body|error];
    cbn.
  - destruct (retainLogsOrDefault sls); [|done].
    destruct (buildLogGroupLookup _ ∅); [|done].
    cbn. by destruct (provider _).
  - destruct (stackDoesNotExist error); [|done]. cbn.
    destruct (retainLogsOrDefault sls); [|done].
    destruct (buildLogGroupLookup _ ∅); [|done].
    cbn. by destruct (provider _).
Qed.

Section Lookup.

Implicit Types (logGroups : ResourceMap) (m acc : gmap string string).


Lemma buildLogGroupLookup_cons key group logGroups acc m :
  buildLogGroupLookup ((key, group) :: logGroups) acc = Some m ↔
  ∃ name, registeredName group = Some name ∧
          buildLogGroupLookup logGroups (setProperty name key acc) = Some m.
Proof.
  unfold registeredName. simpl. destruct (Properties group); simpl.
  - split; [eauto|]. by intros (? & [= <-] & ?).
  - split; [done|]. by intros (? & ? & ?).
Qed.

(** Every entry of the lookup comes from the start value or from a group
    registered under that name. *)
Lemma buildLogGroupLookup_Some logGroups acc m name key :
  buildLogGroupLookup logGroups acc = Some m →
  m !! name = Some key →
  acc !! name = Some key ∨
  ∃ group, (key, group) ∈ logGroups ∧ registeredName group = Some name.
Proof.
  revert acc. induction logGroups as [|[k g] l IH]; intros acc Hm Hk.
  - left. by simplify_eq/=.
  - apply buildLogGroupLookup_cons in Hm as (n & Hn & Hm).
    destruct (IH _ Hm Hk) as [Hacc|(g' & Hin & Hg')].
    + unfold setProperty in Hacc. case_decide; [by left|].
      destruct (decide (n = name)) as [->|Hne].
      * rewrite lookup_insert_eq in Hacc. simplify_eq. right.
        exists g. split; [left|done].
      * rewrite lookup_insert_ne in Hacc by done. by left.
    + right. exists g'. split; [by right|done].
Qed.

(** Groups registered under other names leave the entry of [name] alone. *)
Lemma buildLogGroupLookup_other logGroups acc m name :
  buildLogGroupLookup logGroups acc = Some m →
  (∀ key group, (key, group) ∈ logGroups → registeredName group ≠ Some name) →
  m !! name = acc !! name.
Proof.
  revert acc. induction logGroups as [|[k g] l IH]; intros acc Hm Hno.
  - by simplify_eq/=.
  - apply buildLogGroupLookup_cons in Hm as (n & Hn & Hm).
    rewrite (IH _ Hm); [|intros k' g' Hin; apply (Hno k' g'); by right].
    unfold setProperty. case_decide; [done|].
    apply lookup_insert_ne. intros ->. apply (Hno k g); [left|done].
Qed.

(** A later assignment wins: when some group of the list is registered
    under [name], the lookup holds the key of a group of the list. *)
Lemma buildLogGroupLookup_later logGroups acc m name :
  name ≠ "__proto__" →
  buildLogGroupLookup logGroups acc = Some m →
  (∃ key group, (key, group) ∈ logGroups ∧ registeredName group = Some name) →
  ∃ key group, (key, group) ∈ logGroups ∧ registeredName group = Some name ∧
               m !! name = Some key.
Proof.
  intros Hproto. revert acc.
  induction logGroups as [|[k g] l IH]; intros acc Hm (k' & g' & Hin & Hg').
  - by apply elem_of_nil in Hin.
  - apply buildLogGroupLookup_cons in Hm as (n & Hn & Hm).
    destruct (decide (Exists (λ e, registeredName e.2 = Some name) l))
      as [Hex|Hnex].
    + apply Exists_exists in Hex as ([k2 g2] & Hin2 & Hg2).
      destruct (IH _ Hm) as (k3 & g3 & ? & ? & ?); [by eauto|].
      exists k3, g3. split; [by right|done].
    + assert (n = name ∧ (k', g') = (k, g)) as [-> [= -> ->]].
      { apply elem_of_cons in Hin as [Heq|Hin].
        - simplify_eq. split; congruence.
        - exfalso. apply Hnex, Exists_exists. by exists (k', g'). }
      exists k, g. split; [left|]. split; [done|].
      rewrite (buildLogGroupLookup_other _ _ _ _ Hm).
      * unfold setProperty. rewrite decide_False by done.
        apply lookup_insert_eq.
      * intros k2 g2 Hin2 Hg2. apply Hnex, Exists_exists. by exists (k2, g2).
Qed.

Lemma elem_of_duplicateKeys_loop m (groups : list LogGroupInfo)
  (start : gset string) (key : string) :
  key ∈ foldl (λ (dups : gset string) (group : LogGroupInfo),
                 match m !! logGroupName group with
                 | Some k => {[ k ]} ∪ dups
                 | None => dups
                 end) start groups ↔
  key ∈ start ∨
  ∃ name : string, name ∈ (logGroupName <$> groups) ∧ m !! name = Some key.
Proof.
  revert start. induction groups as [|g groups IH]; intros start.
  - simpl. split; [by left|]. intros [?|(? & Hin & _)]; [done|].
    by apply elem_of_nil in Hin.
  - cbn [foldl]. rewrite IH. rewrite fmap_cons.
    split.
    + intros [Hacc|(n & Hin & Hn)].
      * destruct (m !! logGroupName g) as [k|] eqn:E; [|by left].
        apply elem_of_union in Hacc as [->%elem_of_singleton|?]; [|by left].
        right. exists (logGroupName g). split; [left|done].
      * right. exists n. split; [by right|done].
    + intros [Hacc|(n & Hin & Hn)].
      * left. destruct (m !! logGroupName g); set_solver.
      * apply elem_of_cons in Hin as [->|Hin].
        -- left. rewrite Hn. set_solver.
        -- right. eauto.
Qed.

Lemma elem_of_duplicateKeys m existingLogs key :
  key ∈ duplicateKeys m existingLogs ↔
  ∃ name, name ∈ existingNames existingLogs ∧ m !! name = Some key.
Proof.
  unfold duplicateKeys, existingNames.
  rewrite elem_of_duplicateKeys_loop. set_solver.
Qed.

End Lookup.

Lemma filterDependsOn_empty r : filterDependsOn ∅ r = r.
Proof.
  unfold filterDependsOn, setDependsOn.
  destruct r as [t p [[entries|s]|] d o]; simpl; try done.
  do 3 f_equal. induction entries as [|x l IH]; [done|].
  rewrite filter_cons, decide_True by set_solver. by rewrite IH.
Qed.

Lemma removeDuplicates_empty (obj : ResourceMap) : removeDuplicates ∅ obj = obj.
Proof.
  rewrite removeDuplicates_eq.
  induction obj as [|[k r] obj IH]; [done|].
  rewrite filter_cons, decide_True by set_solver.
  rewrite fmap_cons, IH. simpl. by rewrite filterDependsOn_empty.
Qed.

Lemma removeDuplicates_keys duplicates (obj : ResourceMap) :
  (removeDuplicates duplicates obj).*1 = filter (λ k, k ∉ duplicates) obj.*1.
Proof.
  rewrite removeDuplicates_eq, <- list_fmap_compose.
  induction obj as [|[k r] obj IH]; [done|].
  rewrite filter_cons. cbn [fmap list_fmap fst]. rewrite filter_cons. simpl.
  destruct (decide (k ∉ duplicates)); simpl; [f_equal|]; exact IH.
Qed.

Lemma applyDeletionPolicy_keys policy (logGroups obj : ResourceMap) :
  (applyDeletionPolicy policy logGroups obj).*1 = obj.*1.
Proof.
  rewrite applyDeletionPolicy_eq, <- list_fmap_compose.
  apply list_fmap_ext. intros i [k r] _. simpl. by case_decide.
Qed.

Lemma elem_of_removeDuplicates duplicates (obj : ResourceMap) key res' :
  (key, res') ∈ removeDuplicates duplicates obj ↔
  ∃ res, (key, res) ∈ obj ∧ (key ∉ duplicates) ∧
         res' = filterDependsOn duplicates res.
Proof.
  rewrite removeDuplicates_eq, list_elem_of_fmap. split.
  - intros ([k r] & [= -> ->] & Hin). apply list_elem_of_filter in Hin as [Hk Hin].
    by exists r.
  - intros (r & Hin & Hk & ->). exists (key, r). split; [done|].
    by apply list_elem_of_filter.
Qed.

Lemma elem_of_applyDeletionPolicy policy (logGroups obj : ResourceMap) key res' :
  (key, res') ∈ applyDeletionPolicy policy logGroups obj ↔
  ∃ res, (key, res) ∈ obj ∧
         res' = if decide (key ∈ logGroups.*1)
                then setDeletionPolicy policy res else res.
Proof.
  rewrite applyDeletionPolicy_eq, list_elem_of_fmap. split.
  - intros ([k r] & Heq & Hin). simpl in Heq.
    destruct (decide (k ∈ logGroups.*1)); simplify_eq;
      exists r; by rewrite ?decide_True, ?decide_False by done.
  - intros (r & Hin & ->). exists (key, r). split; [|done]. simpl.
    by case_decide.
Qed.

Lemma elem_of_collectLogGroups (obj : ResourceMap) key res :
  (key, res) ∈ collectLogGroups obj ↔
  (key, res) ∈ obj ∧ Type_ res = "AWS::Logs::LogGroup".
Proof. unfold collectLogGroups. rewrite list_elem_of_filter. naive_solver. Qed.

Lemma getResources_onResources f tpl :
  f [] = [] → getResources (onResources f tpl) = f (getResources tpl).
Proof. intros Hf. unfold getResources, onResources. by destruct tpl as [[rs|]]. Qed.

Lemma onResources_id f tpl :
  f (getResources tpl) = getResources tpl → onResources f tpl = tpl.
Proof.
  unfold getResources, onResources. destruct tpl as [[rs|]]; simpl; [|done].
  by intros ->.
Qed.

(** The template after the two mutating callbacks. *)
Lemma getResources_reconciled policy logGroups duplicates tpl :
  getResources
    (onResources (applyDeletionPolicy policy logGroups)
       (onResources (removeDuplicates duplicates) tpl)) =
  applyDeletionPolicy policy logGroups
    (removeDuplicates duplicates (getResources tpl)).
Proof.
  rewrite !getResources_onResources; [done|done|].
  by rewrite applyDeletionPolicy_eq.
Qed.

(** How the hook can be fulfilled. *)
Lemma afterProbe_Fulfilled sls provider tpl calls tpl' :
  afterProbe sls provider tpl = (calls, (Fulfilled tt, tpl')) →
  let logGroups := collectLogGroups (getResources tpl) in
  let stack := describeStacks (getStackName sls) in
  let inventory := describeLogGroups ("/aws/lambda/" +:+ getStackName sls) in
  (retainLogsOrDefault sls = false ∧
   calls = [stack] ∧
   tpl' = onResources (applyDeletionPolicy "Delete" logGroups) tpl) ∨
  (retainLogsOrDefault sls = true ∧
   calls = [stack; inventory] ∧
   ∃ logGroupLookup existingLogs,
     buildLogGroupLookup logGroups ∅ = Some logGroupLookup ∧
     provider inventory = Resolves existingLogs ∧
     tpl' = onResources (applyDeletionPolicy "Retain" logGroups)
              (onResources
                 (removeDuplicates (duplicateKeys logGroupLookup existingLogs))
                 tpl)).
Proof.
  unfold afterProbe.
  destruct (retainLogsOrDefault sls).
  - destruct (buildLogGroupLookup _ ∅) as [m|] eqn:Hm; [|done].
    destruct (provider _) as [body|e] eqn:Hp; [|done].
    intros [= <- <-]. right. repeat split; eauto.
  - intros [= <- <-]. by left.
Qed.

Lemma reconcile_Fulfilled sls provider tpl calls tpl' :
  reconcile sls provider tpl = (calls, (Fulfilled tt, tpl')) →
  providerName sls = "aws" ∧
  afterProbe sls provider tpl = (calls, (Fulfilled tt, tpl')).
Proof.
  rewrite reconcile_outcome. unfold outcome.
  destruct (decide (providerName sls ≠ "aws")) as [?|Haws]; [done|].
  apply dec_stable in Haws. intros H. split; [done|].
  destruct (provider (describeStacks _)) as [|e]; [done|].
  by destruct (stackDoesNotExist e).
Qed.

(** A rejected hook has not touched the template. *)
Lemma reconcile_Rejected sls provider tpl calls reason tpl' :
  reconcile sls provider tpl = (calls, (Rejected reason, tpl')) → tpl' = tpl.
Proof.
  rewrite reconcile_outcome. unfold outcome, afterProbe.
  repeat (case_match; try done); by intros [= <- <- <-].
Qed.

(** The template a fulfilled hook leaves behind: the duplicates purged, then
    the policy written.  Without [retainLogs] the set of duplicates is
    empty. *)
Lemma reconcile_Fulfilled_template sls provider tpl calls tpl' :
  reconcile sls provider tpl = (calls, (Fulfilled tt, tpl')) →
  let logGroups := collectLogGroups (getResources tpl) in
  let inventory := describeLogGroups ("/aws/lambda/" +:+ getStackName sls) in
  ∃ duplicates,
    tpl' = onResources
             (applyDeletionPolicy
                (if retainLogsOrDefault sls
                 then "Retain" else "Delete") logGroups)
             (onResources (removeDuplicates duplicates) tpl) ∧
    (retainLogsOrDefault sls = false → duplicates = ∅) ∧
    (retainLogsOrDefault sls = true →
     ∃ logGroupLookup existingLogs,
       buildLogGroupLookup logGroups ∅ = Some logGroupLookup ∧
       provider inventory = Resolves existingLogs ∧
       duplicates = duplicateKeys logGroupLookup existingLogs).
Proof.
  intros [_ H]%reconcile_Fulfilled.
  apply afterProbe_Fulfilled in H
    as [(-> & _ & ->)|(-> & _ & m & body & Hm & Hp & ->)].
  - exists ∅. split; [|done].
    rewrite (onResources_id (removeDuplicates ∅)); [done|].
    apply removeDuplicates_empty.
  - exists (duplicateKeys m body). split; [done|]. split; [done|]. eauto.
Qed.

Lemma Type_filterDependsOn duplicates res :
  Type_ (filterDependsOn duplicates res) = Type_ res.
Proof. unfold filterDependsOn. by destruct (DependsOn res) as [[]|]. Qed.

Lemma Properties_filterDependsOn duplicates res :
  Properties (filterDependsOn duplicates res) = Properties res.
Proof. unfold filterDependsOn. by destruct (DependsOn res) as [[]|]. Qed.

Lemma DeletionPolicy_filterDependsOn duplicates res :
  DeletionPolicy (filterDependsOn duplicates res) = DeletionPolicy res.
Proof. unfold filterDependsOn. by destruct (DependsOn res) as [[]|]. Qed.

Lemma otherAttributes_filterDependsOn duplicates res :
  otherAttributes (filterDependsOn duplicates res) = otherAttributes res.
Proof. unfold filterDependsOn. by destruct (DependsOn res) as [[]|]. Qed.

(** A resource of the reconciled template, traced back to the resource it
    was before. *)
Lemma elem_of_reconciled policy logGroups duplicates tpl key res' :
  (key, res') ∈ getResources
    (onResources (applyDeletionPolicy policy logGroups)
       (onResources (removeDuplicates duplicates) tpl)) ↔
  ∃ res, (key, res) ∈ getResources tpl ∧ (key ∉ duplicates) ∧
         res' = if decide (key ∈ logGroups.*1)
                then setDeletionPolicy policy (filterDependsOn duplicates res)
                else filterDependsOn duplicates res.
Proof.
  rewrite getResources_reconciled, elem_of_applyDeletionPolicy.
  setoid_rewrite elem_of_removeDuplicates. naive_solver.
Qed.

Lemma reconciled_keys policy logGroups duplicates tpl :
  (getResources
     (onResources (applyDeletionPolicy policy logGroups)
        (onResources (removeDuplicates duplicates) tpl))).*1 =
  filter (λ k, k ∉ duplicates) (getResources tpl).*1.
Proof.
  by rewrite getResources_reconciled, applyDeletionPolicy_keys,
    removeDuplicates_keys.
Qed.

Lemma DependsOn_filterDependsOn duplicates res :
  DependsOn (filterDependsOn duplicates res) =
  match DependsOn res with
  | Some (DependsOnArray entries) =>
      Some (DependsOnArray (filter (λ d, d ∉ duplicates) entries))
  | other => other
  end.
Proof.
  unfold filterDependsOn. by destruct (DependsOn res) as [[]|] eqn:E.
Qed.

(** Writing the policy, or not, touches [DeletionPolicy] only. *)
Lemma policy_step_frame (P : Prop) `{!Decision P} policy res :
  let res' := if decide P then setDeletionPolicy policy res else res in
  Type_ res' = Type_ res ∧ Properties res' = Properties res ∧
  DependsOn res' = DependsOn res ∧ otherAttributes res' = otherAttributes res.
Proof. simpl. by case_decide. Qed.

Lemma NoDup_keys_unique (obj : ResourceMap) key res1 res2 :
  NoDup obj.*1 → (key, res1) ∈ obj → (key, res2) ∈ obj → res1 = res2.
Proof.
  induction obj as [|[k r] obj IH]; intros Hnd H1 H2.
  - by apply elem_of_nil in H1.
  - apply NoDup_cons in Hnd as [Hk Hnd].
    apply elem_of_cons in H1 as [H1|H1], H2 as [H2|H2]; simplify_eq; auto.
    + exfalso. apply Hk, list_elem_of_fmap. by exists (k, res2).
    + exfalso. apply Hk, list_elem_of_fmap. by exists (k, res1).
Qed.

Lemma elem_of_keys (obj : ResourceMap) key res :
  (key, res) ∈ obj → key ∈ obj.*1.
Proof. intros. apply list_elem_of_fmap. by exists (key, res). Qed.

(** A log group of the reconciled template was collected as a log group
    before. *)
Lemma collected_before policy logGroups duplicates tpl key :
  key ∈ (collectLogGroups
           (getResources
              (onResources (applyDeletionPolicy policy logGroups)
                 (onResources (removeDuplicates duplicates) tpl)))).*1 →
  key ∈ (collectLogGroups (getResources tpl)).*1.
Proof.
  intros ([k g] & ? & [Hg Htype]%elem_of_collectLogGroups)%list_elem_of_fmap.
  simplify_eq/=. apply elem_of_reconciled in Hg as (g0 & Hg0 & _ & ->).
  apply list_elem_of_fmap. exists (k, g0). split; [done|].
  apply elem_of_collectLogGroups. split; [done|].
  rewrite <- Htype. case_decide; simpl; by rewrite Type_filterDependsOn.
Qed.

(** No remaining log group is reported: no key is marked. *)
Lemma duplicateKeys_empty (obj : ResourceMap) m existingLogs :
  buildLogGroupLookup (collectLogGroups obj) ∅ = Some m →
  (∀ key res name,
     (key, res) ∈ obj → Type_ res = "AWS::Logs::LogGroup" →
     registeredName res = Some name → name ∉ existingNames existingLogs) →
  duplicateKeys m existingLogs = ∅.
Proof.
  intros Hm Hnone. apply set_eq. intros key. split; [|set_solver].
  intros (name & Hname & Hlookup)%elem_of_duplicateKeys.
  destruct (buildLogGroupLookup_Some _ _ _ _ _ Hm Hlookup)
    as [Hempty|(group & Hgroup & Hreg)]; [by rewrite lookup_empty in Hempty|].
  apply elem_of_collectLogGroups in Hgroup as [Hgroup Htype].
  destruct (Hnone key group name); auto.
Qed.

(** ** Errors and the probe *)

Lemma buildLogGroupLookup_None (logGroups : ResourceMap) acc :
  buildLogGroupLookup logGroups acc = None ↔
  ∃ key group, (key, group) ∈ logGroups ∧ Properties group = None.
Proof.
  revert acc. induction logGroups as [|[k g] l IH]; intros acc; simpl.
  - split; [done|]. intros (? & ? & Hin & _). by apply elem_of_nil in Hin.
  - destruct (Properties g) as [props|] eqn:E.
    + rewrite IH. split.
      * intros (k' & g' & ? & ?). exists k', g'. split; [by right|done].
      * intros (k' & g' & Hin & Hg). apply elem_of_cons in Hin as [Heq|Hin].
        -- injection Heq as -> ->. congruence.
        -- eauto.
    + split; [|done]. intros _. exists k, g. split; [left|done].
Qed.

Lemma buildLogGroupLookup_is_Some (obj : ResourceMap) :
  (∀ key group, (key, group) ∈ obj → Type_ group = "AWS::Logs::LogGroup" →
                Properties group ≠ None) →
  ∃ m, buildLogGroupLookup (collectLogGroups obj) ∅ = Some m.
Proof.
  intros Hall.
  destruct (buildLogGroupLookup (collectLogGroups obj) ∅) as [m|] eqn:E;
    [by eauto|].
  apply buildLogGroupLookup_None in E
    as (k & g & [Hin Htype]%elem_of_collectLogGroups & Hnone).
  by destruct (Hall k g).
Qed.

Lemma buildLogGroupLookup_proto (logGroups : ResourceMap) acc m :
  buildLogGroupLookup logGroups acc = Some m →
  m !! "__proto__" = acc !! "__proto__".
Proof.
  revert acc. induction logGroups as [|[k g] l IH]; intros acc Hm.
  - by simplify_eq/=.
  - apply buildLogGroupLookup_cons in Hm as (n & Hn & Hm).
    rewrite (IH _ Hm). unfold setProperty. case_decide; [done|].
    by apply lookup_insert_ne.
Qed.

Lemma reconcile_probe_passed sls provider tpl :
  providerName sls = "aws" → probePassed sls provider = true →
  reconcile sls provider tpl = afterProbe sls provider tpl.
Proof.
  intros Haws. rewrite reconcile_outcome. unfold outcome, probePassed.
  rewrite decide_False by (by intros []).
  destruct (provider _) as [|e]; [done|]. by intros ->.
Qed.

Lemma reconcile_probe_failed sls provider tpl :
  providerName sls = "aws" → probePassed sls provider = false →
  ∃ error,
    provider (describeStacks (getStackName sls)) = Rejects error ∧
    stackDoesNotExist error = false ∧
    reconcile sls provider tpl =
      ([describeStacks (getStackName sls)],
       (Rejected (RejectedError error), tpl)).
Proof.
  intros Haws. rewrite reconcile_outcome. unfold outcome, probePassed.
  rewrite decide_False by (by intros []).
  destruct (provider _) as [|e]; [done|]. intros Hclass. exists e.
  by rewrite Hclass.
Qed.

Lemma reconcile_not_aws sls provider tpl :
  providerName sls ≠ "aws" →
  reconcile sls provider tpl =
    ([], (Rejected
            (RejectedMessage "Cannot add Cloudwatch Policy to non-aws provider"),
          tpl)).
Proof.
  intros Hne. rewrite reconcile_outcome. unfold outcome.
  by rewrite decide_True.
Qed.




(** ** The test suite, run *)

Ltac run_fixture := vm_compute; reflexivity.

Example leaves_all_references_if_none_exist :
  reconcile (Fixture.serverlessMock "aws" true)
    (Fixture.providerMock Fixture.stackMissing [])
    Fixture.compiledCloudFormationTemplate =
  ([Fixture.probe; Fixture.inventory],
   (Fulfilled tt, Fixture.withRetainPolicy)).
Proof. run_fixture. Qed.

Example removes_pre_existing_logGroups :
  reconcile (Fixture.serverlessMock "aws" true)
    (Fixture.providerMock Fixture.stackExists ["/aws/lambda/first-log-group"])
    Fixture.compiledCloudFormationTemplate =
  ([Fixture.probe; Fixture.inventory],
   (Fulfilled tt, Fixture.withoutFirstLogGroup)).
Proof. run_fixture. Qed.

Example do_not_retain_leaves_all_references :
  reconcile (Fixture.serverlessMock "aws" false)
    (Fixture.providerMock Fixture.stackExists ["/aws/lambda/first-log-group"])
    Fixture.compiledCloudFormationTemplate =
  ([Fixture.probe], (Fulfilled tt, Fixture.withDeletePolicy)).
Proof. run_fixture. Qed.

(** * The claims *)

(** ** C1: dangling [DependsOn] entries *)




(** ** C2: two candidates with one name *)




(** ** C3: the policy of the remaining log groups *)

(** C3: after [reconcile] has completed successfully, every log-group
    resource remaining in the template has [DeletionPolicy] Retain if and
    only if the [retainLogs] flag of the configuration is true, and Delete
    otherwise. *)
Theorem remaining_logGroup_policy sls provider tpl calls tpl' key res :
  reconcile sls provider tpl = (calls, (Fulfilled tt, tpl')) →
  (key, res) ∈ getResources tpl' →
  Type_ res = "AWS::Logs::LogGroup" →
  (DeletionPolicy res = Some "Retain" ↔ retainLogs (config sls) = Some true) ∧
  (retainLogs (config sls) ≠ Some true → DeletionPolicy res = Some "Delete").
Proof.
  intros (dups & -> & _)%reconcile_Fulfilled_template Hin Htype.
  assert (key ∈ (collectLogGroups (getResources tpl)).*1) as Hkey.
  { eapply collected_before, list_elem_of_fmap. exists (key, res).
    split; [done|]. by apply elem_of_collectLogGroups. }
  apply elem_of_reconciled in Hin as (res0 & Hin & _ & ->).
  rewrite decide_True by done. unfold retainLogsOrDefault. simpl.
  destruct (retainLogs (config sls)) as [[]|]; simpl; naive_solver.
Qed.

Lemma remaining_logGroup_policy_witness :
  (DeletionPolicy
     (Fixture.logGroup "/aws/lambda/second-log-group" (Some "Retain"))
     = Some "Retain" ↔
   retainLogs (config (Fixture.serverlessMock "aws" true)) = Some true) ∧
  (retainLogs (config (Fixture.serverlessMock "aws" true)) ≠ Some true →
   DeletionPolicy
     (Fixture.logGroup "/aws/lambda/second-log-group" (Some "Retain"))
     = Some "Delete").
Proof.
  apply (remaining_logGroup_policy (Fixture.serverlessMock "aws" true)
           (Fixture.providerMock Fixture.stackExists
              ["/aws/lambda/first-log-group"])
           Fixture.compiledCloudFormationTemplate
           [Fixture.probe; Fixture.inventory]
           Fixture.withoutFirstLogGroup "SecondLogGroup").
  - run_fixture.
  - left.
  - reflexivity.
Defined.

(** ** C4: nothing is removed without [retainLogs] *)

(** C4: when [retainLogs] is false, [reconcile] removes no resource from
    the template and leaves every [DependsOn] as it was, whatever the
    provider would answer, and [describeLogGroups] is never requested. *)
Theorem no_removal_without_retainLogs sls provider tpl :
  retainLogsOrDefault sls = false →
  (getResources (reconcile sls provider tpl).2.2).*1 = (getResources tpl).*1 ∧
  (λ entry, DependsOn entry.2) <$> getResources (reconcile sls provider tpl).2.2
    = (λ entry, DependsOn entry.2) <$> getResources tpl ∧
  ∀ prefix, describeLogGroups prefix ∉ (reconcile sls provider tpl).1.
Proof.
  intros Hretain.
  assert (∀ calls s tpl', afterProbe sls provider tpl = (calls, (s, tpl')) →
    calls = [describeStacks (getStackName sls)] ∧
    getResources tpl' =
      applyDeletionPolicy "Delete" (collectLogGroups (getResources tpl))
        (getResources tpl)) as Hafter.
  { unfold afterProbe. rewrite Hretain. intros ??? [= <- <- <-].
    split; [done|]. apply getResources_onResources.
    by rewrite applyDeletionPolicy_eq. }
  assert (∀ calls s tpl', reconcile sls provider tpl = (calls, (s, tpl')) →
    (calls = [] ∨ calls = [describeStacks (getStackName sls)]) ∧
    (getResources tpl' = getResources tpl ∨
     getResources tpl' =
       applyDeletionPolicy "Delete" (collectLogGroups (getResources tpl))
         (getResources tpl))) as Hall.
  { intros calls s tpl'. rewrite reconcile_outcome. unfold outcome.
    destruct (decide (providerName sls ≠ "aws")); [intros [= <- <- <-]; auto|].
    destruct (provider (describeStacks _)) as [|e].
    - intros [-> ->]%Hafter. auto.
    - destruct (stackDoesNotExist e).
      + intros [-> ->]%Hafter. auto.
      + intros [= <- <- <-]. auto. }
  destruct (reconcile sls provider tpl) as [calls [s tpl']] eqn:E. simpl.
  destruct (Hall _ _ _ eq_refl) as [Hcalls Hres].
  assert (∀ policy logGroups (obj : ResourceMap),
    (λ entry, DependsOn entry.2) <$> applyDeletionPolicy policy logGroups obj =
    (λ entry, DependsOn entry.2) <$> obj) as Hdep.
  { intros. rewrite applyDeletionPolicy_eq, <- list_fmap_compose.
    apply list_fmap_ext. intros i [k r] _. simpl. by case_decide. }
  split; [|split].
  - destruct Hres as [->| ->]; [done|]. apply applyDeletionPolicy_keys.
  - destruct Hres as [->| ->]; [done|]. apply Hdep.
  - intros prefix. destruct Hcalls as [->| ->]; set_solver.
Qed.

Lemma no_removal_without_retainLogs_witness :
  retainLogsOrDefault (Fixture.serverlessMock "aws" false) = false ∧
  (getResources
     (reconcile (Fixture.serverlessMock "aws" false)
        (Fixture.providerMock Fixture.stackExists
           ["/aws/lambda/first-log-group"])
        Fixture.compiledCloudFormationTemplate).2.2).*1 =
  (getResources Fixture.compiledCloudFormationTemplate).*1.
Proof.
  split; [reflexivity|].
  apply (no_removal_without_retainLogs (Fixture.serverlessMock "aws" false)
           (Fixture.providerMock Fixture.stackExists
              ["/aws/lambda/first-log-group"])
           Fixture.compiledCloudFormationTemplate).
  reflexivity.
Defined.

(** ** C5: the purge *)



(** ** C6: the existence probe fails *)

(** C6: an error of [describeStacks] with status 400 and a message that
    includes 'does not exist' is taken as a first deployment: the hook goes
    on exactly as if the stack had been found.  With any other error the
    hook is rejected with that error and the template is as it was
    supplied. *)
Theorem stack_probe_failure sls provider tpl error :
  providerName sls = "aws" →
  provider (describeStacks (getStackName sls)) = Rejects error →
  (stackDoesNotExist error = true ↔
   statusCode error = Some 400 ∧
   ∃ perr, providerError error = Some perr ∧
           includes (message perr) "does not exist" = true) ∧
  (stackDoesNotExist error = true →
   ∀ body, reconcile sls provider tpl =
           reconcile sls (withStack (Resolves body) provider) tpl) ∧
  (stackDoesNotExist error = false →
   reconcile sls provider tpl =
     ([describeStacks (getStackName sls)],
      (Rejected (RejectedError error), tpl))).
Proof.
  intros Haws Hprobe. split; [|split].
  - unfold stackDoesNotExist.
    rewrite andb_true_iff, bool_decide_eq_true.
    destruct (providerError error) as [perr|]; naive_solver.
  - intros Hclass body. rewrite !reconcile_outcome. unfold outcome.
    destruct (decide (providerName sls ≠ "aws")) as [?|_]; [done|].
    by rewrite Hprobe, Hclass.
  - intros Hclass. rewrite reconcile_outcome. unfold outcome.
    rewrite decide_False by (by intros []). by rewrite Hprobe, Hclass.
Qed.

Lemma stack_probe_failure_witness :
  (stackDoesNotExist
     (mkRequestError (Some 400)
        (Some (mkProviderError "Resource does not exist"))) = true ↔
   Some 400 = Some 400 ∧
   ∃ perr, Some (mkProviderError "Resource does not exist") = Some perr ∧
           includes (message perr) "does not exist" = true) ∧
  (stackDoesNotExist
     (mkRequestError (Some 400)
        (Some (mkProviderError "Resource does not exist"))) = true →
   ∀ body,
     reconcile (Fixture.serverlessMock "aws" true)
       (Fixture.providerMock Fixture.stackMissing [])
       Fixture.compiledCloudFormationTemplate =
     reconcile (Fixture.serverlessMock "aws" true)
       (withStack (Resolves body)
          (Fixture.providerMock Fixture.stackMissing []))
       Fixture.compiledCloudFormationTemplate) ∧
  (stackDoesNotExist
     (mkRequestError (Some 400)
        (Some (mkProviderError "Resource does not exist"))) = false →
   reconcile (Fixture.serverlessMock "aws" true)
     (Fixture.providerMock Fixture.stackMissing [])
     Fixture.compiledCloudFormationTemplate =
   ([describeStacks "mock-test-stack"],
    (Rejected
       (RejectedError
          (mkRequestError (Some 400)
             (Some (mkProviderError "Resource does not exist")))),
     Fixture.compiledCloudFormationTemplate))).
Proof.
  apply (stack_probe_failure (Fixture.serverlessMock "aws" true)
           (Fixture.providerMock Fixture.stackMissing [])
           Fixture.compiledCloudFormationTemplate
           (mkRequestError (Some 400)
              (Some (mkProviderError "Resource does not exist")))).
  - reflexivity.
  - reflexivity.
Defined.

(** ** C7: a provider other than aws *)

(** C7: when the provider of the service is not aws, the hook is rejected at
    once with the message of the unsupported provider, the template is
    unchanged, and no request is made: the promise is settled from the
    start. *)
Theorem unsupported_provider_rejected sls provider tpl :
  providerName sls ≠ "aws" →
  addCloudwatchPolicy sls tpl =
    Settled
      (Rejected
         (RejectedMessage "Cannot add Cloudwatch Policy to non-aws provider"),
       tpl) ∧
  reconcile sls provider tpl =
    ([], (Rejected
            (RejectedMessage "Cannot add Cloudwatch Policy to non-aws provider"),
          tpl)).
Proof.
  intros Hname. unfold reconcile, addCloudwatchPolicy.
  by rewrite decide_True.
Qed.

Lemma unsupported_provider_rejected_witness :
  addCloudwatchPolicy (Fixture.serverlessMock "google" true)
    Fixture.compiledCloudFormationTemplate =
    Settled
      (Rejected
         (RejectedMessage "Cannot add Cloudwatch Policy to non-aws provider"),
       Fixture.compiledCloudFormationTemplate) ∧
  reconcile (Fixture.serverlessMock "google" true)
    (Fixture.providerMock Fixture.stackExists [])
    Fixture.compiledCloudFormationTemplate =
  ([], (Rejected
          (RejectedMessage "Cannot add Cloudwatch Policy to non-aws provider"),
        Fixture.compiledCloudFormationTemplate)).
Proof.
  apply (unsupported_provider_rejected (Fixture.serverlessMock "google" true)).
  discriminate.
Defined.

(** ** C8: a second run *)



(** ** C9: the order of the two requests *)

(** C9: on aws the hook starts with the one request [describeStacks],
    whatever [retainLogs] is; [describeLogGroups] is requested, if at all,
    by the continuation that has received and classified the answer to
    [describeStacks], and nothing is requested after it: at any time at most
    one request is pending, and [describeStacks] is requested exactly
    once. *)
Theorem probe_once_then_inventory sls tpl :
  providerName sls = "aws" →
  let stack := describeStacks (getStackName sls) in
  let inventory := describeLogGroups ("/aws/lambda/" +:+ getStackName sls) in
  (∃ k, addCloudwatchPolicy sls tpl = Pending stack k ∧
        ∀ resp, (∃ r, k resp = Settled r) ∨
                (∃ k', k resp = Pending inventory k' ∧
                       ∀ resp', ∃ r, k' resp' = Settled r)) ∧
  ∀ provider,
    ((reconcile sls provider tpl).1 = [stack] ∨
     (reconcile sls provider tpl).1 = [stack; inventory]) ∧
    length (filter (λ rq, rq = stack) (reconcile sls provider tpl).1) = 1%nat.
Proof.
  intros Haws. split.
  - unfold addCloudwatchPolicy. rewrite decide_False by (by intros []).
    cbn. eexists. split; [reflexivity|]. intros [body|error]; cbn.
    + unfold _removeDuplicateLogGroups.
      destruct (retainLogsOrDefault sls); [|left; by eexists].
      destruct (buildLogGroupLookup _ ∅); [|left; by eexists].
      right. cbn. eexists. split; [reflexivity|].
      intros [|]; cbn; by eexists.
    + destruct (stackDoesNotExist error); [|left; by eexists]. cbn.
      unfold _removeDuplicateLogGroups.
      destruct (retainLogsOrDefault sls); [|left; by eexists].
      destruct (buildLogGroupLookup _ ∅); [|left; by eexists].
      right. cbn. eexists. split; [reflexivity|].
      intros [|]; cbn; by eexists.
  - intros provider.
    assert ((reconcile sls provider tpl).1 = [describeStacks (getStackName sls)] ∨
            (reconcile sls provider tpl).1 =
              [describeStacks (getStackName sls);
               describeLogGroups ("/aws/lambda/" +:+ getStackName sls)])
      as Hcalls.
    { rewrite reconcile_outcome. unfold outcome, afterProbe.
      rewrite decide_False by (by intros []).
      repeat case_match; simpl; auto. }
    split; [exact Hcalls|].
    destruct Hcalls as [-> | ->]; rewrite filter_cons, decide_True by done.
    + done.
    + by rewrite filter_cons, decide_False.
Qed.

Lemma probe_once_then_inventory_witness :
  (∃ k, addCloudwatchPolicy (Fixture.serverlessMock "aws" true)
          Fixture.compiledCloudFormationTemplate = Pending Fixture.probe k ∧
        ∀ resp, (∃ r, k resp = Settled r) ∨
                (∃ k', k resp = Pending Fixture.inventory k' ∧
                       ∀ resp', ∃ r, k' resp' = Settled r)) ∧
  ∀ provider,
    ((reconcile (Fixture.serverlessMock "aws" true) provider
        Fixture.compiledCloudFormationTemplate).1 = [Fixture.probe] ∨
     (reconcile (Fixture.serverlessMock "aws" true) provider
        Fixture.compiledCloudFormationTemplate).1 =
       [Fixture.probe; Fixture.inventory]) ∧
    length
      (filter (λ rq, rq = Fixture.probe)
         (reconcile (Fixture.serverlessMock "aws" true) provider
            Fixture.compiledCloudFormationTemplate).1) = 1%nat.
Proof.
  apply (probe_once_then_inventory (Fixture.serverlessMock "aws" true)
           Fixture.compiledCloudFormationTemplate).
  reflexivity.
Defined.

(** ** C10: what a run leaves alone *)

(** C10, as stated, fails for a log group that declares no name: its
    missing [LogGroupName] is read as the property key ["undefined"], and it
    is removed when the inventory reports a group of that name, though no
    declared name matched. *)
Lemma unnamed_logGroup_removed :
  reconcile (Fixture.serverlessMock "aws" true)
    (Fixture.providerMock Fixture.stackExists ["undefined"])
    Scenario.withUnnamedLogGroup =
  ([Fixture.probe; Fixture.inventory], (Fulfilled tt, mkTemplate (Some []))) ∧
  ("UnnamedLogGroup", Scenario.unnamedLogGroup)
    ∈ getResources Scenario.withUnnamedLogGroup ∧
  ("UnnamedLogGroup" ∉ (getResources (mkTemplate (Some []))).*1) ∧
  ¬ ∃ props name,
      Properties Scenario.unnamedLogGroup = Some props ∧
      LogGroupName props = Some name ∧
      name ∈ ["undefined"].
Proof.
  split; [run_fixture|]. split; [left|]. split.
  - intros Hin. by apply elem_of_nil in Hin.
  - intros (props & name & [= <-] & Hname & _). discriminate Hname.
Qed.

(** C10 (amended): [reconcile] adds no resource; a resource it removes is a
    log group whose [LogGroupName], read as a property key (["undefined"]
    when the group declares none), is one of the names the inventory
    reported; of a resource that remains, [Type], [Properties] and the other
    attributes are unchanged, [DependsOn] is unchanged or has lost entries,
    and [DeletionPolicy] is unchanged unless the resource is a log group. *)
Theorem frame_of_reconcile sls provider tpl calls settlement tpl' :
  NoDup (getResources tpl).*1 →
  reconcile sls provider tpl = (calls, (settlement, tpl')) →
  (getResources tpl').*1 `sublist_of` (getResources tpl).*1 ∧
  (∀ key res,
     (key, res) ∈ getResources tpl → key ∉ (getResources tpl').*1 →
     Type_ res = "AWS::Logs::LogGroup" ∧
     ∃ name existingLogs,
       registeredName res = Some name ∧
       provider (describeLogGroups ("/aws/lambda/" +:+ getStackName sls))
         = Resolves existingLogs ∧
       name ∈ existingNames existingLogs) ∧
  (∀ key res',
     (key, res') ∈ getResources tpl' →
     ∃ res,
       (key, res) ∈ getResources tpl ∧
       Type_ res' = Type_ res ∧
       Properties res' = Properties res ∧
       otherAttributes res' = otherAttributes res ∧
       (DependsOn res' = DependsOn res ∨
        ∃ entries entries',
          DependsOn res = Some (DependsOnArray entries) ∧
          DependsOn res' = Some (DependsOnArray entries') ∧
          entries' `sublist_of` entries) ∧
       (Type_ res ≠ "AWS::Logs::LogGroup" →
        DeletionPolicy res' = DeletionPolicy res)).
Proof.
  intros Hnd Hrun. destruct settlement as [[]|reason].
  2: { apply reconcile_Rejected in Hrun as ->. split; [done|]. split.
       - intros key res Hin Hout. destruct Hout. by eapply elem_of_keys.
       - intros key res Hin. exists res. naive_solver. }
  apply reconcile_Fulfilled_template in Hrun as (dups & -> & Hoff & Hon).
  rewrite reconciled_keys. split; [apply sublist_filter|]. split.
  - intros key res Hin Hout.
    assert (key ∈ dups) as Hdup.
    { destruct (decide (key ∈ dups)) as [?|Hno]; [done|]. destruct Hout.
      apply list_elem_of_filter. split; [done|]. by eapply elem_of_keys. }
    destruct (retainLogsOrDefault sls).
    2: { rewrite Hoff in Hdup by done. set_solver. }
    destruct Hon as (m & body & Hm & Hbody & ->); [done|].
    apply elem_of_duplicateKeys in Hdup as (name & Hname & Hlookup).
    destruct (buildLogGroupLookup_Some _ _ _ _ _ Hm Hlookup)
      as [Hempty|(group & Hgroup & Hreg)]; [by rewrite lookup_empty in Hempty|].
    apply elem_of_collectLogGroups in Hgroup as [Hgroup Htype].
    assert (group = res) as -> by by eapply NoDup_keys_unique.
    split; [done|]. by exists name, body.
  - intros key res' (res & Hin & Hk & ->)%elem_of_reconciled.
    exists res. split; [done|].
    destruct (policy_step_frame
                (key ∈ (collectLogGroups (getResources tpl)).*1)
                (if retainLogsOrDefault sls then "Retain" else "Delete")
                (filterDependsOn dups res)) as (Ht & Hp & Hd & Ho).
    simpl in Ht, Hp, Hd, Ho. rewrite Ht, Hp, Hd, Ho.
    rewrite Type_filterDependsOn, Properties_filterDependsOn,
      otherAttributes_filterDependsOn, DependsOn_filterDependsOn.
    do 3 (split; [done|]). split.
    + destruct (DependsOn res) as [[entries|]|]; auto.
      right. eexists _, _. split; [done|]. split; [done|]. apply sublist_filter.
    + intros Htype. rewrite decide_False, DeletionPolicy_filterDependsOn; [done|].
      intros ([k g] & ? & [Hg Hlg]%elem_of_collectLogGroups)%list_elem_of_fmap.
      simplify_eq/=. by rewrite (NoDup_keys_unique _ _ _ _ Hnd Hin Hg) in Htype.
Qed.

Lemma frame_of_reconcile_witness :
  NoDup (getResources Fixture.compiledCloudFormationTemplate).*1 ∧
  reconcile (Fixture.serverlessMock "aws" true)
    (Fixture.providerMock Fixture.stackExists ["/aws/lambda/first-log-group"])
    Fixture.compiledCloudFormationTemplate =
  ([Fixture.probe; Fixture.inventory],
   (Fulfilled tt, Fixture.withoutFirstLogGroup)) ∧
  (getResources Fixture.withoutFirstLogGroup).*1
    `sublist_of` (getResources Fixture.compiledCloudFormationTemplate).*1.
Proof.
  assert (NoDup (getResources Fixture.compiledCloudFormationTemplate).*1)
    as Hnd.
  { apply (bool_decide_unpack _). vm_compute. exact I. }
  assert (reconcile (Fixture.serverlessMock "aws" true)
            (Fixture.providerMock Fixture.stackExists
               ["/aws/lambda/first-log-group"])
            Fixture.compiledCloudFormationTemplate =
          ([Fixture.probe; Fixture.inventory],
           (Fulfilled tt, Fixture.withoutFirstLogGroup))) as Hrun.
  { run_fixture. }
  split; [exact Hnd|]. split; [exact Hrun|].
  apply (frame_of_reconcile _ _ _ _ _ _ Hnd Hrun).
Defined.

(** * Further properties of the plugin *)

(** ** X1 *)

(** X1: Every rejection leaves the template as it was supplied, and comes from
    one of four places: the provider guard, the existence probe, a log group
    without [Properties], or the inventory. *)
Theorem rejection_leaves_template sls provider tpl calls reason tpl' :
  reconcile sls provider tpl = (calls, (Rejected reason, tpl')) →
  let stack := describeStacks (getStackName sls) in
  let inventory := describeLogGroups ("/aws/lambda/" +:+ getStackName sls) in
  tpl' = tpl ∧
  ((providerName sls ≠ "aws" ∧ calls = [] ∧
    reason = RejectedMessage "Cannot add Cloudwatch Policy to non-aws provider") ∨
   (providerName sls = "aws" ∧ calls = [stack] ∧
    ∃ error, provider stack = Rejects error ∧
             stackDoesNotExist error = false ∧
             reason = RejectedError error) ∨
   (providerName sls = "aws" ∧ probePassed sls provider = true ∧
    retainLogsOrDefault sls = true ∧ calls = [stack] ∧
    reason = TypeError ∧
    ∃ key group, (key, group) ∈ getResources tpl ∧
                 Type_ group = "AWS::Logs::LogGroup" ∧
                 Properties group = None) ∨
   (providerName sls = "aws" ∧ probePassed sls provider = true ∧
    retainLogsOrDefault sls = true ∧ calls = [stack; inventory] ∧
    ∃ error, provider inventory = Rejects error ∧
             reason = RejectedError error)).
Proof.
  intros Hrun. simpl. split; [by eapply reconcile_Rejected|].
  destruct (decide (providerName sls = "aws")) as [Haws|Hne].
  2: { left. rewrite reconcile_not_aws in Hrun by done. by simplify_eq. }
  right. destruct (probePassed sls provider) eqn:Hprobe.
  - right. rewrite reconcile_probe_passed in Hrun by done.
    unfold afterProbe in Hrun.
    destruct (retainLogsOrDefault sls); [|done].
    destruct (buildLogGroupLookup _ ∅) as [m|] eqn:Hm.
    + right. destruct (provider (describeLogGroups _)) as [|e] eqn:Hinv;
        [done|]. simplify_eq. repeat split; eauto.
    + left. simplify_eq.
      apply buildLogGroupLookup_None in Hm as (k & g & Hin & Hnone).
      apply elem_of_collectLogGroups in Hin as [Hin Htype].
      repeat split; eauto.
  - left. destruct (reconcile_probe_failed sls provider tpl Haws Hprobe)
      as (e & Hstack & Hclass & Hrej).
    rewrite Hrej in Hrun. simplify_eq. repeat split; eauto.
Qed.

Lemma rejection_leaves_template_witness :
  reconcile (Fixture.serverlessMock "aws" true) Scenario.failingInventory
    Fixture.compiledCloudFormationTemplate =
  ([Fixture.probe; Fixture.inventory],
   (Rejected (RejectedError Scenario.inventoryError),
    Fixture.compiledCloudFormationTemplate)) ∧
  Fixture.compiledCloudFormationTemplate =
    Fixture.compiledCloudFormationTemplate.
Proof.
  assert (reconcile (Fixture.serverlessMock "aws" true)
            Scenario.failingInventory
            Fixture.compiledCloudFormationTemplate =
          ([Fixture.probe; Fixture.inventory],
           (Rejected (RejectedError Scenario.inventoryError),
            Fixture.compiledCloudFormationTemplate))) as Hrun.
  { run_fixture. }
  split; [exact Hrun|].
  apply (rejection_leaves_template _ _ _ _ _ _ Hrun).
Defined.

(** ** X2 *)

(** X2: The hook is fulfilled exactly when the provider is aws, the existence
    probe is passed and, if [retainLogs] is set, every log group has
    [Properties] and the inventory request resolves. *)
Theorem fulfilled_iff sls provider tpl :
  (reconcile sls provider tpl).2.1 = Fulfilled tt ↔
  providerName sls = "aws" ∧ probePassed sls provider = true ∧
  (retainLogsOrDefault sls = true →
   (∀ key group, (key, group) ∈ getResources tpl →
                 Type_ group = "AWS::Logs::LogGroup" →
                 Properties group ≠ None) ∧
   ∃ existingLogs,
     provider (describeLogGroups ("/aws/lambda/" +:+ getStackName sls))
       = Resolves existingLogs).
Proof.
  split.
  - intros Hful.
    destruct (decide (providerName sls = "aws")) as [Haws|Hne];
      [|by rewrite reconcile_not_aws in Hful].
    destruct (probePassed sls provider) eqn:Hprobe.
    2: { destruct (reconcile_probe_failed sls provider tpl Haws Hprobe)
           as (e & _ & _ & Hrej). by rewrite Hrej in Hful. }
    rewrite reconcile_probe_passed in Hful by done.
    split; [done|]. split; [done|]. intros Hretain.
    unfold afterProbe in Hful. rewrite Hretain in Hful.
    destruct (buildLogGroupLookup _ ∅) as [m|] eqn:Hm; [|done].
    destruct (provider (describeLogGroups _)) as [body|e]; [|done].
    split; [|by eauto]. intros key group Hin Htype Hnone.
    assert (buildLogGroupLookup (collectLogGroups (getResources tpl)) ∅ = None)
      as Hcontra; [|congruence].
    apply buildLogGroupLookup_None. exists key, group. split; [|done].
    by apply elem_of_collectLogGroups.
  - intros (Haws & Hprobe & Hretain).
    rewrite reconcile_probe_passed by done. unfold afterProbe.
    destruct (retainLogsOrDefault sls); [|done].
    destruct Hretain as [Hprops [body Hbody]]; [done|].
    destruct (buildLogGroupLookup_is_Some _ Hprops) as [m ->].
    by rewrite Hbody.
Qed.

(** ** X3 *)

(** X3: When the inventory request is rejected, the hook is rejected with that
    error after the two requests, and the template is as supplied: no policy
    has been written. *)
Theorem inventory_failure sls provider tpl error :
  providerName sls = "aws" →
  probePassed sls provider = true →
  retainLogsOrDefault sls = true →
  (∀ key group, (key, group) ∈ getResources tpl →
                Type_ group = "AWS::Logs::LogGroup" →
                Properties group ≠ None) →
  provider (describeLogGroups ("/aws/lambda/" +:+ getStackName sls))
    = Rejects error →
  reconcile sls provider tpl =
    ([describeStacks (getStackName sls);
      describeLogGroups ("/aws/lambda/" +:+ getStackName sls)],
     (Rejected (RejectedError error), tpl)).
Proof.
  intros Haws Hprobe Hretain Hprops Hinv.
  rewrite reconcile_probe_passed by done. unfold afterProbe.
  rewrite Hretain. destruct (buildLogGroupLookup_is_Some _ Hprops) as [m ->].
  by rewrite Hinv.
Qed.

Lemma inventory_failure_witness :
  reconcile (Fixture.serverlessMock "aws" true) Scenario.failingInventory
    Fixture.compiledCloudFormationTemplate =
  ([describeStacks "mock-test-stack";
    describeLogGroups "/aws/lambda/mock-test-stack"],
   (Rejected (RejectedError Scenario.inventoryError),
    Fixture.compiledCloudFormationTemplate)).
Proof.
  apply (inventory_failure (Fixture.serverlessMock "aws" true)
           Scenario.failingInventory Fixture.compiledCloudFormationTemplate
           Scenario.inventoryError).
  - reflexivity.
  - reflexivity.
  - reflexivity.
  - intros key group Hin Htype.
    repeat (apply elem_of_cons in Hin as [Hin|Hin];
            [injection Hin as -> ->; discriminate|]).
    by apply elem_of_nil in Hin.
  - reflexivity.
Defined.

(** ** X4 *)

(** X4: With [retainLogs] set, a log group without [Properties] makes the hook
    fail with a TypeError before the inventory is requested; the template is
    as supplied. *)
Theorem logGroup_without_Properties sls provider tpl key group :
  providerName sls = "aws" →
  probePassed sls provider = true →
  retainLogsOrDefault sls = true →
  (key, group) ∈ getResources tpl →
  Type_ group = "AWS::Logs::LogGroup" →
  Properties group = None →
  reconcile sls provider tpl =
    ([describeStacks (getStackName sls)], (Rejected TypeError, tpl)).
Proof.
  intros Haws Hprobe Hretain Hin Htype Hnone.
  rewrite reconcile_probe_passed by done. unfold afterProbe.
  rewrite Hretain.
  assert (buildLogGroupLookup (collectLogGroups (getResources tpl)) ∅ = None)
    as ->; [|done].
  apply buildLogGroupLookup_None. exists key, group. split; [|done].
  by apply elem_of_collectLogGroups.
Qed.

Lemma logGroup_without_Properties_witness :
  reconcile (Fixture.serverlessMock "aws" true)
    (Fixture.providerMock Fixture.stackExists ["/aws/lambda/first-log-group"])
    Scenario.withBareLogGroup =
  ([describeStacks "mock-test-stack"],
   (Rejected TypeError, Scenario.withBareLogGroup)).
Proof.
  apply (logGroup_without_Properties (Fixture.serverlessMock "aws" true)
           (Fixture.providerMock Fixture.stackExists
              ["/aws/lambda/first-log-group"])
           Scenario.withBareLogGroup "BareLogGroup" Scenario.bareLogGroup).
  - reflexivity.
  - reflexivity.
  - reflexivity.
  - right. left.
  - reflexivity.
  - reflexivity.
Defined.

(** ** X5 *)

(** X5: A template without log groups (no resources at all, or no [Resources])
    comes back unchanged from every run; with [retainLogs] set the inventory
    is requested all the same. *)
Theorem template_without_logGroups sls provider tpl :
  (∀ key res, (key, res) ∈ getResources tpl →
              Type_ res ≠ "AWS::Logs::LogGroup") →
  (reconcile sls provider tpl).2.2 = tpl ∧
  (providerName sls = "aws" → probePassed sls provider = true →
   retainLogsOrDefault sls = true →
   (reconcile sls provider tpl).1 =
     [describeStacks (getStackName sls);
      describeLogGroups ("/aws/lambda/" +:+ getStackName sls)]).
Proof.
  intros Hnone.
  assert (collectLogGroups (getResources tpl) = []) as Hnil.
  { destruct (collectLogGroups (getResources tpl)) as [|[k r] l] eqn:E;
      [done|].
    assert ((k, r) ∈ collectLogGroups (getResources tpl)) as Hin
      by (rewrite E; left).
    apply elem_of_collectLogGroups in Hin as [Hin Htype].
    by destruct (Hnone k r). }
  split.
  - destruct (reconcile sls provider tpl) as [calls [[[]|reason] tpl']] eqn:E;
      simpl; [|by eapply reconcile_Rejected].
    apply reconcile_Fulfilled_template in E as (dups & -> & Hoff & Hon).
    rewrite Hnil in *.
    assert (dups = ∅) as ->.
    { destruct (retainLogsOrDefault sls); [|by apply Hoff].
      destruct Hon as (m & body & Hm & _ & ->); [done|].
      simplify_eq/=. apply set_eq. intros k. split; [|set_solver].
      intros (n & _ & Hn)%elem_of_duplicateKeys.
      by rewrite lookup_empty in Hn. }
    rewrite (onResources_id (removeDuplicates ∅))
      by apply removeDuplicates_empty.
    by apply onResources_id.
  - intros Haws Hprobe Hretain. rewrite reconcile_probe_passed by done.
    unfold afterProbe. rewrite Hretain, Hnil. simpl.
    by destruct (provider _).
Qed.

Lemma template_without_logGroups_witness :
  (reconcile (Fixture.serverlessMock "aws" true)
     (Fixture.providerMock Fixture.stackExists ["/aws/lambda/first-log-group"])
     Scenario.functionsOnly).2.2 = Scenario.functionsOnly ∧
  ("aws" = "aws" →
   probePassed (Fixture.serverlessMock "aws" true)
     (Fixture.providerMock Fixture.stackExists ["/aws/lambda/first-log-group"])
     = true →
   retainLogsOrDefault (Fixture.serverlessMock "aws" true) = true →
   (reconcile (Fixture.serverlessMock "aws" true)
      (Fixture.providerMock Fixture.stackExists
         ["/aws/lambda/first-log-group"])
      Scenario.functionsOnly).1 =
   [describeStacks "mock-test-stack";
    describeLogGroups "/aws/lambda/mock-test-stack"]).
Proof.
  apply (template_without_logGroups (Fixture.serverlessMock "aws" true)
           (Fixture.providerMock Fixture.stackExists
              ["/aws/lambda/first-log-group"])
           Scenario.functionsOnly).
  intros key res Hin.
  repeat (apply elem_of_cons in Hin as [Hin|Hin];
          [injection Hin as -> ->; discriminate|]).
  by apply elem_of_nil in Hin.
Defined.

(** ** X6 *)

(** X6: A [DependsOn] that is one string, not an array, is never changed, also
    when the resource it names has been removed. *)
Theorem string_DependsOn_untouched
  sls provider tpl calls settlement tpl' key res entry :
  reconcile sls provider tpl = (calls, (settlement, tpl')) →
  (key, res) ∈ getResources tpl →
  DependsOn res = Some (DependsOnString entry) →
  key ∈ (getResources tpl').*1 →
  ∃ res', (key, res') ∈ getResources tpl' ∧
          DependsOn res' = Some (DependsOnString entry).
Proof.
  intros Hrun Hin Hdep Hkey. destruct settlement as [[]|reason].
  2: { apply reconcile_Rejected in Hrun as ->. eauto. }
  apply reconcile_Fulfilled_template in Hrun as (dups & -> & _).
  rewrite reconciled_keys in Hkey.
  apply list_elem_of_filter in Hkey as [Hkey _].
  eexists. split.
  - apply elem_of_reconciled. exists res. eauto.
  - destruct (policy_step_frame
                (key ∈ (collectLogGroups (getResources tpl)).*1)
                (if retainLogsOrDefault sls then "Retain" else "Delete")
                (filterDependsOn dups res)) as (_ & _ & Hsame & _).
    simpl in Hsame. by rewrite Hsame, DependsOn_filterDependsOn, Hdep.
Qed.

Lemma string_DependsOn_untouched_witness :
  reconcile (Fixture.serverlessMock "aws" true)
    (Fixture.providerMock Fixture.stackExists ["/aws/lambda/first-log-group"])
    Scenario.withStringDependsOn =
  ([Fixture.probe; Fixture.inventory],
   (Fulfilled tt, Scenario.stringDependsOnReconciled)) ∧
  ("FirstLogGroup" ∉ (getResources Scenario.stringDependsOnReconciled).*1) ∧
  ∃ res', ("FirstFunction", res')
            ∈ getResources Scenario.stringDependsOnReconciled ∧
          DependsOn res' = Some (DependsOnString "FirstLogGroup").
Proof.
  assert (reconcile (Fixture.serverlessMock "aws" true)
            (Fixture.providerMock Fixture.stackExists
               ["/aws/lambda/first-log-group"])
            Scenario.withStringDependsOn =
          ([Fixture.probe; Fixture.inventory],
           (Fulfilled tt, Scenario.stringDependsOnReconciled))) as Hrun.
  { run_fixture. }
  split; [exact Hrun|]. split.
  - intros Hin. apply list_elem_of_singleton in Hin. discriminate Hin.
  - apply (string_DependsOn_untouched _ _ _ _ _ _ "FirstFunction"
             Scenario.dependentFunction "FirstLogGroup" Hrun).
    + right. left.
    + reflexivity.
    + left.
Defined.

(** ** X7 *)

(** X7: When no other log group declares its name, a log group is removed by a
    successful run with [retainLogs] exactly when the inventory reports its
    name. *)
Theorem removed_iff_reported
  sls provider tpl calls tpl' existingLogs key group name :
  NoDup (getResources tpl).*1 →
  retainLogsOrDefault sls = true →
  reconcile sls provider tpl = (calls, (Fulfilled tt, tpl')) →
  provider (describeLogGroups ("/aws/lambda/" +:+ getStackName sls))
    = Resolves existingLogs →
  (key, group) ∈ getResources tpl →
  Type_ group = "AWS::Logs::LogGroup" →
  registeredName group = Some name →
  name ≠ "__proto__" →
  (∀ key' group', (key', group') ∈ getResources tpl →
                  Type_ group' = "AWS::Logs::LogGroup" →
                  registeredName group' = Some name → key' = key) →
  (key ∉ (getResources tpl').*1 ↔ name ∈ existingNames existingLogs).
Proof.
  intros Hnd Hretain (dups & -> & _ & Hon)%reconcile_Fulfilled_template
    Hbody Hin Htype Hreg Hproto Huniq.
  destruct (Hon Hretain) as (m & body & Hm & Hbody' & ->). clear Hon.
  rewrite Hbody in Hbody'. simplify_eq.
  rewrite reconciled_keys, list_elem_of_filter.
  assert (key ∈ (getResources tpl).*1) as Hkey by by eapply elem_of_keys.
  assert (key ∈ duplicateKeys m body ↔ name ∈ existingNames body) as <-;
    [|split; [|tauto]; intros Hno;
      by destruct (decide (key ∈ duplicateKeys m body)); [|destruct Hno]].
  rewrite elem_of_duplicateKeys. split.
  - intros (n & Hn & Hlookup).
    destruct (buildLogGroupLookup_Some _ _ _ _ _ Hm Hlookup)
      as [Hempty|(g & Hg & Hgn)]; [by rewrite lookup_empty in Hempty|].
    apply elem_of_collectLogGroups in Hg as [Hg _].
    rewrite (NoDup_keys_unique _ _ _ _ Hnd Hg Hin) in Hgn. congruence.
  - intros Hname. exists name. split; [done|].
    destruct (buildLogGroupLookup_later _ _ _ name Hproto Hm)
      as (k & g & Hg & Hgn & Hlookup).
    { exists key, group. split; [|done]. by apply elem_of_collectLogGroups. }
    apply elem_of_collectLogGroups in Hg as [Hg Hgt].
    by rewrite <- (Huniq k g Hg Hgt Hgn).
Qed.

Lemma removed_iff_reported_witness :
  "FirstLogGroup" ∉ (getResources Fixture.withoutFirstLogGroup).*1 ↔
  "/aws/lambda/first-log-group"
    ∈ existingNames
        (mkResponseBody (Some [mkLogGroupInfo "/aws/lambda/first-log-group"])).
Proof.
  apply (removed_iff_reported (Fixture.serverlessMock "aws" true)
           (Fixture.providerMock Fixture.stackExists
              ["/aws/lambda/first-log-group"])
           Fixture.compiledCloudFormationTemplate
           [Fixture.probe; Fixture.inventory] Fixture.withoutFirstLogGroup
           (mkResponseBody
              (Some [mkLogGroupInfo "/aws/lambda/first-log-group"]))
           "FirstLogGroup"
           (Fixture.logGroup "/aws/lambda/first-log-group" None)
           "/aws/lambda/first-log-group").
  - apply (bool_decide_unpack _). vm_compute. exact I.
  - reflexivity.
  - run_fixture.
  - reflexivity.
  - left.
  - reflexivity.
  - reflexivity.
  - discriminate.
  - intros key' group' Hin Htype Hname.
    apply elem_of_cons in Hin as [Hin|Hin]; [by injection Hin as -> _|].
    repeat (apply elem_of_cons in Hin as [Hin|Hin];
            [injection Hin as -> ->; discriminate|]).
    by apply elem_of_nil in Hin.
Defined.

(** ** X8 *)

(** X8: A log group named ["__proto__"] is never removed, whatever the inventory
    reports: its name cannot be entered into the lookup object. *)
Theorem proto_logGroup_never_removed
  sls provider tpl calls settlement tpl' key group :
  NoDup (getResources tpl).*1 →
  (key, group) ∈ getResources tpl →
  registeredName group = Some "__proto__" →
  reconcile sls provider tpl = (calls, (settlement, tpl')) →
  key ∈ (getResources tpl').*1.
Proof.
  intros Hnd Hin Hreg Hrun. destruct settlement as [[]|reason].
  2: { apply reconcile_Rejected in Hrun as ->. by eapply elem_of_keys. }
  apply reconcile_Fulfilled_template in Hrun as (dups & -> & Hoff & Hon).
  rewrite reconciled_keys. apply list_elem_of_filter.
  split; [|by eapply elem_of_keys].
  destruct (retainLogsOrDefault sls).
  2: { rewrite Hoff by done. set_solver. }
  destruct Hon as (m & body & Hm & _ & ->); [done|].
  intros (n & _ & Hlookup)%elem_of_duplicateKeys.
  destruct (buildLogGroupLookup_Some _ _ _ _ _ Hm Hlookup)
    as [Hempty|(g & Hg & Hgn)]; [by rewrite lookup_empty in Hempty|].
  apply elem_of_collectLogGroups in Hg as [Hg _].
  rewrite (NoDup_keys_unique _ _ _ _ Hnd Hg Hin) in Hgn.
  rewrite Hreg in Hgn. simplify_eq.
  rewrite (buildLogGroupLookup_proto _ _ _ Hm), lookup_empty in Hlookup.
  done.
Qed.

Lemma proto_logGroup_never_removed_witness :
  reconcile (Fixture.serverlessMock "aws" true)
    (Fixture.providerMock Fixture.stackExists ["__proto__"])
    Scenario.withProtoLogGroup =
  ([Fixture.probe; Fixture.inventory],
   (Fulfilled tt, Scenario.protoReconciled)) ∧
  "ProtoLogGroup" ∈ (getResources Scenario.protoReconciled).*1.
Proof.
  assert (reconcile (Fixture.serverlessMock "aws" true)
            (Fixture.providerMock Fixture.stackExists ["__proto__"])
            Scenario.withProtoLogGroup =
          ([Fixture.probe; Fixture.inventory],
           (Fulfilled tt, Scenario.protoReconciled))) as Hrun.
  { run_fixture. }
  split; [exact Hrun|].
  apply (proto_logGroup_never_removed (Fixture.serverlessMock "aws" true)
           (Fixture.providerMock Fixture.stackExists ["__proto__"])
           Scenario.withProtoLogGroup [Fixture.probe; Fixture.inventory]
           (Fulfilled tt) Scenario.protoReconciled "ProtoLogGroup"
           (Fixture.logGroup "__proto__" None)).
  - apply (bool_decide_unpack _). vm_compute. exact I.
  - left.
  - reflexivity.
  - exact Hrun.
Defined.

(** ** X9 *)

Lemma prefix_spec (needle haystack : string) :
  String.prefix needle haystack = true ↔ ∃ post, haystack = needle +:+ post.
Proof.
  revert haystack. induction needle as [|a needle IH]; intros haystack.
  - split; [|by destruct haystack]. intros _. by exists haystack.
  - destruct haystack as [|b haystack]; simpl.
    + split; [done|]. by intros [? ?].
    + destruct (Ascii.ascii_dec a b) as [->|Hne].
      * rewrite IH. split.
        -- intros [post ->]. by exists post.
        -- intros [post [= ->]]. by exists post.
      * split; [done|]. intros [post [= ? ?]]. by subst.
Qed.

Lemma includes_spec (haystack needle : string) :
  includes haystack needle = true ↔
  ∃ pre post, haystack = pre +:+ needle +:+ post.
Proof.
  induction haystack as [|a haystack IH].
  - unfold includes. rewrite orb_false_r, prefix_spec. split.
    + intros [post ->]. by exists "", post.
    + intros ([|??] & post & Heq); [by eexists|done].
  - cbn [includes]. rewrite orb_true_iff, prefix_spec, IH. split.
    + intros [[post ->]|(pre & post & ->)].
      * by exists "", post.
      * by exists (String a pre), post.
    + intros ([|b pre] & post & Heq).
      * left. by exists post.
      * right. injection Heq as -> ->. by exists pre, post.
Qed.

(** X9: The error of the existence probe counts as 'stack does not exist'
    exactly when its status code is 400 and the message of its provider
    error has 'does not exist' somewhere in it. *)
Theorem stackDoesNotExist_iff error :
  stackDoesNotExist error = true ↔
  statusCode error = Some 400 ∧
  ∃ pre post,
    providerError error =
      Some (mkProviderError (pre +:+ "does not exist" +:+ post)).
Proof.
  unfold stackDoesNotExist.
  rewrite andb_true_iff, bool_decide_eq_true.
  destruct (providerError error) as [[msg]|]; simpl.
  - rewrite includes_spec. split.
    + intros [? (pre & post & ->)]. eauto.
    + intros [? (pre & post & [= ->])]. eauto.
  - split; [by intros [_ ?]|]. by intros [_ (? & ? & ?)].
Qed.

(** ** X10 *)

(** In a template with distinct keys the collected keys are the keys of the
    log groups. *)
Lemma elem_of_collected_keys (obj : ResourceMap) key res :
  NoDup obj.*1 → (key, res) ∈ obj →
  key ∈ (collectLogGroups obj).*1 ↔ Type_ res = "AWS::Logs::LogGroup".
Proof.
  intros Hnd Hin. rewrite list_elem_of_fmap. split.
  - intros ([k g] & ? & [Hg Htype]%elem_of_collectLogGroups). simplify_eq/=.
    by rewrite (NoDup_keys_unique _ _ _ _ Hnd Hin Hg).
  - intros Htype. exists (key, res). split; [done|].
    by apply elem_of_collectLogGroups.
Qed.

(** X10: When [retainLogs] is not set, or the inventory reports no name that a
    log group of the template declares, a successful run leaves the template
    as it was but for the [DeletionPolicy] of every log group. *)
Theorem policy_only_when_nothing_matches sls provider tpl calls tpl' :
  NoDup (getResources tpl).*1 →
  reconcile sls provider tpl = (calls, (Fulfilled tt, tpl')) →
  (retainLogsOrDefault sls = true →
   ∀ existingLogs key group name,
     provider (describeLogGroups ("/aws/lambda/" +:+ getStackName sls))
       = Resolves existingLogs →
     (key, group) ∈ getResources tpl →
     Type_ group = "AWS::Logs::LogGroup" →
     registeredName group = Some name →
     name ∉ existingNames existingLogs) →
  getResources tpl' =
    (λ entry,
       if decide (Type_ entry.2 = "AWS::Logs::LogGroup")
       then (entry.1,
             setDeletionPolicy
               (if retainLogsOrDefault sls then "Retain" else "Delete")
               entry.2)
       else entry) <$> getResources tpl.
Proof.
  intros Hnd (dups & -> & Hoff & Hon)%reconcile_Fulfilled_template Hnone.
  assert (dups = ∅) as ->.
  { destruct (retainLogsOrDefault sls); [|by apply Hoff].
    destruct Hon as (m & body & Hm & Hbody & ->); [done|].
    eapply duplicateKeys_empty; [done|]. intros key res name ???.
    by eapply Hnone. }
  rewrite getResources_reconciled, removeDuplicates_empty,
    applyDeletionPolicy_eq.
  apply list_fmap_ext. intros i [key res] Hin%list_elem_of_lookup_2. simpl.
  destruct (decide (Type_ res = "AWS::Logs::LogGroup")) as [Htype|Htype].
  - rewrite decide_True; [done|]. by apply (elem_of_collected_keys _ _ res).
  - rewrite decide_False; [done|]. by rewrite (elem_of_collected_keys _ _ res).
Qed.

Lemma policy_only_when_nothing_matches_witness :
  getResources Fixture.withRetainPolicy =
    (λ entry,
       if decide (Type_ entry.2 = "AWS::Logs::LogGroup")
       then (entry.1,
             setDeletionPolicy
               (if retainLogsOrDefault (Fixture.serverlessMock "aws" true)
                then "Retain" else "Delete")
               entry.2)
       else entry) <$> getResources Fixture.compiledCloudFormationTemplate.
Proof.
  apply (policy_only_when_nothing_matches (Fixture.serverlessMock "aws" true)
           (Fixture.providerMock Fixture.stackMissing [])
           Fixture.compiledCloudFormationTemplate
           [Fixture.probe; Fixture.inventory] Fixture.withRetainPolicy).
  - apply (bool_decide_unpack _). vm_compute. exact I.
  - run_fixture.
  - intros _ existingLogs key group name [= <-] _ _ _ Hin.
    by apply elem_of_nil in Hin.
Defined.

(** ** X11 *)

Lemma filterDependsOn_union d1 d2 res :
  filterDependsOn d1 (filterDependsOn d2 res) = filterDependsOn (d1 ∪ d2) res.
Proof.
  unfold filterDependsOn, setDependsOn.
  destruct res as [t p [[entries|s]|] d o]; simpl; try done.
  do 3 f_equal. rewrite list_filter_filter. apply list_filter_iff.
  intros x. set_solver.
Qed.

(** X11: Purging one set of keys after another is purging their union; in
    particular the purge is idempotent. *)
Theorem removeDuplicates_union d1 d2 (obj : ResourceMap) :
  removeDuplicates d1 (removeDuplicates d2 obj) = removeDuplicates (d1 ∪ d2) obj ∧
  removeDuplicates d1 (removeDuplicates d1 obj) = removeDuplicates d1 obj.
Proof.
  assert (∀ a b, removeDuplicates a (removeDuplicates b obj) =
                 removeDuplicates (a ∪ b) obj) as Hunion.
  { intros a b. rewrite !removeDuplicates_eq.
    induction obj as [|[k r] obj IH]; [done|].
    rewrite !(filter_cons _ (k, r)). simpl.
    destruct (decide (k ∈ b)) as [Hb|Hb].
    - rewrite decide_False by tauto.
      rewrite (decide_False (P := k ∉ a ∪ b)) by set_solver. exact IH.
    - rewrite decide_True by done. rewrite fmap_cons, filter_cons. simpl.
      destruct (decide (k ∈ a)) as [Ha|Ha].
      + rewrite decide_False by tauto.
        rewrite (decide_False (P := k ∉ a ∪ b)) by set_solver. exact IH.
      + rewrite decide_True by done.
        rewrite (decide_True (P := k ∉ a ∪ b)) by set_solver.
        rewrite !fmap_cons. simpl. rewrite filterDependsOn_union.
        f_equal. exact IH. }
  split; [apply Hunion|].
  rewrite Hunion. f_equal. set_solver.
Qed.

(** ** X12 *)

(** X12: The result depends on the inventory only through which of the declared
    names it reports: order, repetitions and names that no log group
    declares make no difference, and a missing [logGroups] field reads as an
    empty list. *)
Theorem inventory_matters_by_declared_names
  sls provider1 provider2 tpl existingLogs1 existingLogs2 :
  provider1 (describeStacks (getStackName sls)) =
    provider2 (describeStacks (getStackName sls)) →
  provider1 (describeLogGroups ("/aws/lambda/" +:+ getStackName sls))
    = Resolves existingLogs1 →
  provider2 (describeLogGroups ("/aws/lambda/" +:+ getStackName sls))
    = Resolves existingLogs2 →
  (∀ key group name,
     (key, group) ∈ getResources tpl →
     Type_ group = "AWS::Logs::LogGroup" →
     registeredName group = Some name →
     name ∈ existingNames existingLogs1 ↔ name ∈ existingNames existingLogs2) →
  reconcile sls provider1 tpl = reconcile sls provider2 tpl.
Proof.
  intros Hstack H1 H2 Hnames. rewrite !reconcile_outcome. unfold outcome.
  rewrite Hstack.
  assert (afterProbe sls provider1 tpl = afterProbe sls provider2 tpl) as ->;
    [|done].
  unfold afterProbe. rewrite H1, H2.
  destruct (retainLogsOrDefault sls); [|done].
  destruct (buildLogGroupLookup _ ∅) as [m|] eqn:Hm; [|done].
  assert (duplicateKeys m existingLogs1 = duplicateKeys m existingLogs2) as ->;
    [|done].
  apply set_eq. intros key. rewrite !elem_of_duplicateKeys.
  assert (∀ n, m !! n = Some key →
               n ∈ existingNames existingLogs1 ↔ n ∈ existingNames existingLogs2)
    as Hiff.
  { intros n Hn.
    destruct (buildLogGroupLookup_Some _ _ _ _ _ Hm Hn)
      as [Hempty|(g & Hg & Hgn)]; [by rewrite lookup_empty in Hempty|].
    apply elem_of_collectLogGroups in Hg as [Hg Htype]. by eapply Hnames. }
  split; intros (n & Hin & Hn); exists n; (split; [|done]); by apply (Hiff n).
Qed.

Lemma inventory_matters_by_declared_names_witness :
  reconcile (Fixture.serverlessMock "aws" true)
    (Fixture.providerMock Fixture.stackExists
       ["/aws/lambda/first-log-group"])
    Fixture.compiledCloudFormationTemplate =
  reconcile (Fixture.serverlessMock "aws" true)
    (Fixture.providerMock Fixture.stackExists
       ["/aws/lambda/other"; "/aws/lambda/first-log-group";
        "/aws/lambda/first-log-group"])
    Fixture.compiledCloudFormationTemplate.
Proof.
  apply (inventory_matters_by_declared_names
           (Fixture.serverlessMock "aws" true) _ _
           Fixture.compiledCloudFormationTemplate
           (mkResponseBody
              (Some [mkLogGroupInfo "/aws/lambda/first-log-group"]))
           (mkResponseBody
              (Some [mkLogGroupInfo "/aws/lambda/other";
                     mkLogGroupInfo "/aws/lambda/first-log-group";
                     mkLogGroupInfo "/aws/lambda/first-log-group"]))).
  - reflexivity.
  - reflexivity.
  - reflexivity.
  - intros key group name Hin Htype Hname.
    apply elem_of_cons in Hin as [Hin|Hin].
    { injection Hin as -> ->. injection Hname as <-. split; intros _.
      - right. left.
      - left. }
    apply elem_of_cons in Hin as [Hin|Hin].
    { injection Hin as -> ->. injection Hname as <-. split; intros Hin.
      - apply list_elem_of_singleton in Hin. discriminate Hin.
      - repeat (apply elem_of_cons in Hin as [Hin|Hin]; [discriminate Hin|]).
        by apply elem_of_nil in Hin. }
    repeat (apply elem_of_cons in Hin as [Hin|Hin];
            [injection Hin as -> ->; discriminate|]).
    by apply elem_of_nil in Hin.
Defined.

(** ** X14 *)

(** X14: Without a [cloudwatchPolicy] entry, or without [retainLogs] in it, the
    registered hook works as with [retainLogs: false]: it never requests the
    inventory, keeps every resource, and when it is fulfilled every log
    group has [DeletionPolicy] Delete. *)
Theorem default_configuration serverless plugin name hook provider tpl :
  service_custom serverless = Some None ∨
  service_custom serverless = Some (Some (mkConfig None)) →
  constructor serverless = Some plugin →
  (name, hook) ∈ hooks plugin →
  (∀ prefix, describeLogGroups prefix ∉ (run provider (hook tpl)).1) ∧
  (getResources (run provider (hook tpl)).2.2).*1 = (getResources tpl).*1 ∧
  ((run provider (hook tpl)).2.1 = Fulfilled tt →
   ∀ key res, (key, res) ∈ getResources (run provider (hook tpl)).2.2 →
              Type_ res = "AWS::Logs::LogGroup" →
              DeletionPolicy res = Some "Delete").
Proof.
  intros Hcustom Hplugin Hhook. unfold constructor in Hplugin.
  destruct (service_custom serverless) as [entry|] eqn:Hentry; [|done].
  simplify_eq/=. apply list_elem_of_singleton in Hhook. simplify_eq.
  set (sls := mkServerless _ _ _).
  assert (retainLogsOrDefault sls = false) as Hretain.
  { by destruct Hcustom as [[= ->]|[= ->]]. }
  change (run provider (addCloudwatchPolicy sls tpl))
    with (reconcile sls provider tpl).
  destruct (reconcile sls provider tpl) as [calls [[[]|reason] tpl']] eqn:E;
    simpl.
  - apply reconcile_Fulfilled in E as [_ E].
    apply afterProbe_Fulfilled in E
      as [(_ & -> & ->)|(Hon & _)]; [|congruence].
    rewrite getResources_onResources by (by rewrite applyDeletionPolicy_eq).
    split; [set_solver|]. split; [apply applyDeletionPolicy_keys|].
    intros _ key res (res0 & Hin & ->)%elem_of_applyDeletionPolicy Htype.
    rewrite decide_True; [done|].
    apply list_elem_of_fmap. exists (key, res0). split; [done|].
    apply elem_of_collectLogGroups. split; [done|].
    rewrite <- Htype. by case_decide.
  - pose proof E as ->%reconcile_Rejected. split; [|done].
    intros prefix Hin.
    destruct (decide (providerName sls = "aws")) as [Haws|Hne].
    + destruct (probePassed sls provider) eqn:Hprobe.
      * rewrite reconcile_probe_passed in E by done.
        unfold afterProbe in E. by rewrite Hretain in E.
      * destruct (reconcile_probe_failed sls provider tpl Haws Hprobe)
          as (e & _ & _ & Hrej).
        rewrite Hrej in E. simplify_eq. set_solver.
    + rewrite reconcile_not_aws in E by done. simplify_eq. set_solver.
Qed.

Lemma default_configuration_witness :
  (∀ prefix,
     describeLogGroups prefix ∉
       (run (Fixture.providerMock Fixture.stackExists
               ["/aws/lambda/first-log-group"])
          (addCloudwatchPolicy (mkServerless "aws" "mock-test-stack" None)
             Fixture.compiledCloudFormationTemplate)).1) ∧
  (getResources
     (run (Fixture.providerMock Fixture.stackExists
             ["/aws/lambda/first-log-group"])
        (addCloudwatchPolicy (mkServerless "aws" "mock-test-stack" None)
           Fixture.compiledCloudFormationTemplate)).2.2).*1 =
    (getResources Fixture.compiledCloudFormationTemplate).*1 ∧
  ((run (Fixture.providerMock Fixture.stackExists
           ["/aws/lambda/first-log-group"])
      (addCloudwatchPolicy (mkServerless "aws" "mock-test-stack" None)
         Fixture.compiledCloudFormationTemplate)).2.1 = Fulfilled tt →
   ∀ key res,
     (key, res) ∈ getResources
       (run (Fixture.providerMock Fixture.stackExists
               ["/aws/lambda/first-log-group"])
          (addCloudwatchPolicy (mkServerless "aws" "mock-test-stack" None)
             Fixture.compiledCloudFormationTemplate)).2.2 →
     Type_ res = "AWS::Logs::LogGroup" →
     DeletionPolicy res = Some "Delete").
Proof.
  apply (default_configuration Scenario.unconfigured
           (mkPlugin (mkServerless "aws" "mock-test-stack" None) []
              [("before:package:finalize",
                addCloudwatchPolicy (mkServerless "aws" "mock-test-stack" None))])
           "before:package:finalize").
  - left. reflexivity.
  - reflexivity.
  - left.
Defined.
